(** * mapbox-pinsoft-ui: the map component and its aircraft refresher

    A shallow embedding of [src/app/map/map.component.ts]: the JavaScript
    values the component handles, the parts of the turf and mapbox-gl
    interfaces it calls, the component's methods as functions on an
    explicit component state, and the asynchronous refresh loop as a
    transition system driven by the events of the browser. *)

From Stdlib Require Import Floats ZArith.
From stdpp Require Import gmap strings list.

Set Warnings "-inexact-float,-register-all".

(** ** JavaScript values and completions *)

Module JS.

(** A thrown value: a [TypeError] raised by the runtime, the
    [HttpErrorResponse] a rejected request carries, or the [Error] an
    image load reports. *)
Inductive exn :=
| TypeError (msg : string)
| HttpErrorResponse (status : Z)
| Error (msg : string).

(** The outcome of evaluating a piece of code: a value, or a throw. *)
Inductive completion (A : Type) :=
| Normal (a : A)
| Throw (e : exn).
Arguments Normal {A} a.
Arguments Throw {A} e.

#[global] Instance completion_ret : MRet completion := @Normal.
#[global] Instance completion_bind : MBind completion :=
  λ A B f c, match c with Normal a => f a | Throw e => Throw e end.

(** Values of type [any]: what a parsed JSON body contains, and
    [undefined], which reading a missing property produces.  Numbers are
    IEEE 754 binary64, as in JavaScript. *)
Inductive value :=
| VUndefined
| VNull
| VBool (b : bool)
| VNum (x : float)
| VStr (s : string)
| VArr (items : list value)
| VObj (fields : list (string * value)).

(** Own property of an object literal or parsed object; [undefined]
    when the key is missing. *)
Fixpoint lookup_field (p : string) (fields : list (string * value)) : value :=
  match fields with
  | [] => VUndefined
  | (k, v) :: rest => if String.eqb k p then v else lookup_field p rest
  end.

(** [v.p] without the throw: the property, or [undefined]. *)
Definition field (v : value) (p : string) : value :=
  match v with
  | VObj fields => lookup_field p fields
  | _ => VUndefined
  end.

(** [v.p] for the property names the component reads ([ac], [lat],
    [lon], [flight], [track]), none of which a primitive wrapper or an
    array defines: reading from [undefined] or [null] throws, anything
    else yields the own property or [undefined]. *)
Definition get (v : value) (p : string) : completion value :=
  match v with
  | VUndefined | VNull =>
      Throw (TypeError ("Cannot read properties of undefined or null (reading '" +:+ p +:+ "')"))
  | _ => Normal (field v p)
  end.

(** [a === b] for the operands the component compares (a value against
    a number, [undefined] or a string literal).  Two numbers compare as
    IEEE 754 does: [-0 === 0], and [NaN] equals nothing.  Objects compare
    by identity, which is not represented; no comparison of the
    component has two object operands. *)
Definition strict_eq (a b : value) : bool :=
  match a, b with
  | VUndefined, VUndefined => true
  | VNull, VNull => true
  | VBool x, VBool y => Bool.eqb x y
  | VNum x, VNum y => PrimFloat.eqb x y
  | VStr x, VStr y => String.eqb x y
  | _, _ => false
  end.

(** ToBoolean: [undefined], [null], [false], [0], [-0], [NaN] and the
    empty string are falsy, every other value is truthy. *)
Definition truthy (v : value) : bool :=
  match v with
  | VUndefined | VNull => false
  | VBool b => b
  | VNum x => negb (PrimFloat.eqb x 0) && PrimFloat.eqb x x
  | VStr s => negb (String.eqb s "")
  | VArr _ | VObj _ => true
  end.

(** [a || b] on values already evaluated ([b] is a literal where the
    component uses it). *)
Definition or (a b : value) : value := if truthy a then a else b.

(** [Array.prototype.filter] and [Array.prototype.map] with a callback
    that may throw: the first throw ends the traversal. *)
Fixpoint filterM (f : value → completion bool) (l : list value)
  : completion (list value) :=
  match l with
  | [] => Normal []
  | x :: rest =>
      b ← f x;
      kept ← filterM f rest;
      Normal (if b : bool then x :: kept else kept)
  end.

Fixpoint mapM {B : Type} (f : value → completion B) (l : list value)
  : completion (list B) :=
  match l with
  | [] => Normal []
  | x :: rest =>
      y ← f x;
      ys ← mapM f rest;
      Normal (y :: ys)
  end.

(** [v.filter(f)]: only an array has the method.  A parsed JSON body
    holds no function, so on any other value the call throws. *)
Definition filter_method (v : value) (f : value → completion bool)
  : completion (list value) :=
  match v with
  | VArr items => filterM f items
  | VUndefined | VNull =>
      Throw (TypeError "Cannot read properties of undefined or null (reading 'filter')")
  | _ => Throw (TypeError "filter is not a function")
  end.

End JS.
Import JS.

(** ** GeoJSON objects and the turf helpers *)

Inductive Geometry :=
| Point (coordinates : list value)
| LineString (coordinates : list (list value)).

(** A GeoJSON feature: [{type: 'Feature', geometry, properties}]. *)
Record Feature := {
  geometry : Geometry;
  properties : list (string * value);
}.

Inductive GeoJSON :=
| FeatureCollection (features : list Feature)
| FeatureData (f : Feature).

Module turf.

(** [turf.point(coordinates, properties)] and
    [turf.lineString(coordinates)], on the arguments the component
    passes (number pairs; two positions). *)
Definition point (coordinates : list value) (properties : list (string * value))
  : Feature :=
  {| geometry := Point coordinates; properties := properties |}.

Definition lineString (coordinates : list (list value)) : Feature :=
  {| geometry := LineString coordinates; properties := [] |}.

Definition featureCollection (features : list Feature) : GeoJSON :=
  FeatureCollection features.

(** [feature.geometry.coordinates] of a point feature. *)
Definition point_coordinates (f : Feature) : list value :=
  match geometry f with
  | Point c => c
  | LineString _ => []
  end.

End turf.

(** ** The mapbox-gl interface the component uses *)

Module mapboxgl.

Inductive Source :=
| GeoJSONSource (data : GeoJSON)
| VectorSource (url : string).

Inductive LayerType := symbol | line | fill.

(** A layer specification, as passed to [addLayer]; [layout] and
    [paint] keep their entries as written. *)
Record Layer := {
  id : string;
  type : LayerType;
  source : string;
  source_layer : option string;
  layout : list (string * value);
  paint : list (string * value);
  filter : option value;
}.

Record Image := { url : string }.

(** One map instance.  [removed]: the map has no style, because
    [remove()] deleted it and no call has created one since.  [loading]
    holds the [loadImage] requests in flight, each with the image name
    its callback registers; [layers] holds the layers the component
    added, in the order of the calls, each with the layer of the style it
    was placed before; [listeners] the (event, layer) pairs given to
    [on]. *)
Record Map := {
  style : string;
  zoom : float;
  center : float * float;
  removed : bool;
  images : gmap string Image;
  sources : gmap string Source;
  layers : list (Layer * option string);
  listeners : list (string * string);
  loading : list (string * string);
}.

(** [new mapboxgl.Map({container, style, zoom, center})]. *)
Definition new_Map (style : string) (zoom : float) (center : float * float) : Map :=
  {| style := style; zoom := zoom; center := center; removed := false;
     images := ∅; sources := ∅; layers := []; listeners := []; loading := [] |}.

(** [map.remove()]: the style and everything registered in it is
    released; the map has no style afterwards. *)
Definition remove (m : Map) : Map :=
  {| style := style m; zoom := zoom m; center := center m; removed := true;
     images := ∅; sources := ∅; layers := []; listeners := [];
     loading := loading m |}.

Definition with_sources (m : Map) (s : gmap string Source) : Map :=
  {| style := style m; zoom := zoom m; center := center m; removed := removed m;
     images := images m; sources := s; layers := layers m;
     listeners := listeners m; loading := loading m |}.

Definition with_images (m : Map) (i : gmap string Image) : Map :=
  {| style := style m; zoom := zoom m; center := center m; removed := removed m;
     images := i; sources := sources m; layers := layers m;
     listeners := listeners m; loading := loading m |}.

Definition with_layers (m : Map) (l : list (Layer * option string)) : Map :=
  {| style := style m; zoom := zoom m; center := center m; removed := removed m;
     images := images m; sources := sources m; layers := l;
     listeners := listeners m; loading := loading m |}.

Definition with_listeners (m : Map) (l : list (string * string)) : Map :=
  {| style := style m; zoom := zoom m; center := center m; removed := removed m;
     images := images m; sources := sources m; layers := layers m;
     listeners := l; loading := loading m |}.

Definition with_loading (m : Map) (l : list (string * string)) : Map :=
  {| style := style m; zoom := zoom m; center := center m; removed := removed m;
     images := images m; sources := sources m; layers := layers m;
     listeners := listeners m; loading := l |}.

Section Calls.

(** [getSource] reads the style.  On a map without a style the library
    throws a [TypeError]: that is [after_remove = Some e].  [None] stands
    for a library that would answer [undefined] there; what is proved for
    every [after_remove] does not depend on which of the two it is. *)
Variable after_remove : option exn.

(** [map.getSource(id)]: the source, or [undefined]. *)
Definition getSource (m : Map) (id : string) : completion (option Source) :=
  if removed m
  then match after_remove with Some e => Throw e | None => Normal None end
  else Normal (sources m !! id).

(** [source.setData(data)] on the source [map.getSource(id)]
    returned: only a GeoJSON source has the method. *)
Definition setData (m : Map) (id : string) (src : Source) (data : GeoJSON)
  : completion Map :=
  match src with
  | GeoJSONSource _ =>
      Normal (with_sources m (<[id := GeoJSONSource data]> (sources m)))
  | VectorSource _ => Throw (TypeError "source.setData is not a function")
  end.

End Calls.

(** Evaluation of a [match] expression over a feature's properties, as
    the style specification defines it for string labels:
    [['match', input, label1, output1, ..., fallback]] selects the
    output whose label equals the input, or the fallback. *)
Fixpoint match_branches (input : value) (branches : list value) : option value :=
  match branches with
  | [] => None
  | [fallback] => Some fallback
  | label :: output :: rest =>
      if strict_eq input label then Some output else match_branches input rest
  end.

(** The labels of the branches; [None] when one of them is not a
    string literal. *)
Fixpoint branch_labels (branches : list value) : option (list string) :=
  match branches with
  | VStr label :: _ :: rest => (label ::.) <$> branch_labels rest
  | _ :: _ :: _ => None
  | _ => Some []
  end.

(** [['get', name]]: the feature property, [null] when it is missing. *)
Definition eval_get (e : value) (props : gmap string value) : option value :=
  match e with
  | VArr [VStr op; VStr name] =>
      if String.eqb op "get" then Some (default VNull (props !! name)) else None
  | _ => None
  end.

(** The expression parser refuses a [match] with fewer than four
    arguments, an odd number of them, or a repeated label; the layer is
    then not styled ([None]). *)
Definition evaluate (e : value) (props : gmap string value) : option value :=
  match e with
  | VArr (VStr op :: input :: branches) =>
      if String.eqb op "match"
         && bool_decide (3 ≤ length branches)%nat
         && Nat.odd (length branches)
         && match branch_labels branches with
            | Some labels => bool_decide (NoDup labels)
            | None => false
            end
      then i ← eval_get input props; match_branches i branches
      else None
  | _ => None
  end.

(** What the style validation accepts as the value of a paint or layout
    property: a [match] expression must have an input, at least one
    branch and a fallback, and no label twice; any other value of the
    component's layers passes. *)
Definition valid_expression (e : value) : bool :=
  match e with
  | VArr (VStr op :: args) =>
      if String.eqb op "match" then
        match args with
        | _ :: branches =>
            bool_decide (3 ≤ length branches)%nat
            && Nat.odd (length branches)
            && match branch_labels branches with
               | Some labels => bool_decide (NoDup labels)
               | None => false
               end
        | [] => false
        end
      else true
  | _ => true
  end.

Definition valid_layer (l : Layer) : bool :=
  forallb (λ property, valid_expression property.2) (paint l)
  && forallb (λ property, valid_expression property.2) (layout l).

(** The calls that write to the style create an empty one first when
    the map has none, as it is after [remove()]. *)
Definition lazyInitEmptyStyle (m : Map) : Map :=
  if removed m
  then {| style := style m; zoom := zoom m; center := center m; removed := false;
          images := ∅; sources := ∅; layers := [];
          listeners := listeners m; loading := loading m |}
  else m.

(** [map.addSource(id, source)]; an id already in use is an error. *)
Definition addSource (m : Map) (id : string) (src : Source) : completion Map :=
  let m := lazyInitEmptyStyle m in
  match sources m !! id with
  | Some _ => Throw (Error "There is already a source with this ID")
  | None => Normal (with_sources m (<[id := src]> (sources m)))
  end.

(** [map.addLayer(layer, before)]: a layer id already in use, and a
    layer the style validation refuses, are reported on the map's error
    event and the layer is not added.  The layer named by [before]
    belongs to the style the map was created with, which is not
    represented. *)
Definition addLayer (m : Map) (l : Layer) (before : option string) : completion Map :=
  let m := lazyInitEmptyStyle m in
  Normal (with_layers m
            (if negb (bool_decide (id l ∈ (id ∘ fst) <$> layers m)) && valid_layer l
             then layers m ++ [(l, before)]
             else layers m)).

(** [map.on(event, layer, listener)]. *)
Definition on (m : Map) (event layer : string) : completion Map :=
  Normal (with_listeners m (listeners m ++ [(event, layer)])).

(** [map.loadImage(url, callback)] starts the request and returns;
    the callback is called later, when the request has ended. *)
Definition loadImage (m : Map) (url name : string) : completion Map :=
  Normal (with_loading m (loading m ++ [(url, name)])).

(** [map.addImage(name, image)]; a name already in use is reported on
    the map's error event and the image is not added. *)
Definition addImage (m : Map) (name : string) (img : Image) : completion Map :=
  let m := lazyInitEmptyStyle m in
  Normal (with_images m
            (match images m !! name with
             | Some _ => images m
             | None => <[name := img]> (images m)
             end)).

End mapboxgl.

(** ** The bundled datasets *)

Module data.

(** An entry of [data/airports.json]: the fields the component reads.
    The coordinates are JSON numbers. *)
Record Airport := {
  name : value;
  iata : value;
  icao : value;
  lon : float;
  lat : float;
}.

(** An entry of the [countries] table of [data/countries]: the one
    field the component reads. *)
Record Country := { alpha3 : string }.

End data.

(** ** The map component *)

(** The fields of [MapComponent] that change, and the calls made to
    [console.error] so far. *)
Record MapComponent := {
  map : option mapboxgl.Map;
  popup : bool;
  isFetching : bool;
  console : list (string * exn);
}.

Definition style : string := "mapbox://styles/mapbox/light-v11".
Definition lat : float := 39.911652%float.
Definition lng : float := 32.840305%float.
Definition zoom : float := 5%float.

Definition set_map (c : MapComponent) (m : option mapboxgl.Map) : MapComponent :=
  {| map := m; popup := popup c; isFetching := isFetching c; console := console c |}.

Definition set_popup (c : MapComponent) (p : bool) : MapComponent :=
  {| map := map c; popup := p; isFetching := isFetching c; console := console c |}.

Definition set_isFetching (c : MapComponent) (b : bool) : MapComponent :=
  {| map := map c; popup := popup c; isFetching := b; console := console c |}.

Definition console_error (msg : string) (e : exn) (c : MapComponent) : MapComponent :=
  {| map := map c; popup := popup c; isFetching := isFetching c;
     console := console c ++ [(msg, e)] |}.

(** The component before [ngOnInit]. *)
Definition constructed : MapComponent :=
  {| map := None; popup := false; isFetching := false; console := [] |}.

(** *** fetchPlanes *)

(** The filter callback,
    [plane.lat !== 0 && plane.lon !== 0 && plane.flight !== undefined],
    with the left-to-right evaluation of [&&]. *)
Definition keep (plane : value) : completion bool :=
  lat ← get plane "lat";
  if negb (strict_eq lat (VNum 0)) then
    lon ← get plane "lon";
    if negb (strict_eq lon (VNum 0)) then
      flight ← get plane "flight";
      Normal (negb (strict_eq flight VUndefined))
    else Normal false
  else Normal false.

(** The map callback: the point feature of a plane. *)
Definition toFeature (plane : value) : completion Feature :=
  lon ← get plane "lon";
  lat ← get plane "lat";
  track ← get plane "track";
  flight ← get plane "flight";
  Normal {| geometry := Point [lon; lat];
            properties := [("heading", JS.or track (VNum 0)); ("flight", flight)] |}.

(** [response.ac.filter(...).map(...)]: the constant [planes]. *)
Definition planes (response : value) : completion (list Feature) :=
  ac ← get response "ac";
  kept ← filter_method ac keep;
  mapM toFeature kept.

Section Component.

Variable after_remove : option exn.
Variable airportData : list (string * data.Airport).
Variable countries : list data.Country.

(** [this.map?.f(...)] for a call that changes the map. *)
Definition on_map (c : MapComponent) (f : mapboxgl.Map → completion mapboxgl.Map)
  : completion MapComponent :=
  match map c with
  | None => Normal c
  | Some m => m' ← f m; Normal (set_map c (Some m'))
  end.

(** The end of the [try] block: look the source up and, when there is
    one, replace its data. *)
Definition publish (geojson : GeoJSON) (c : MapComponent) : completion MapComponent :=
  match map c with
  | None => Normal c
  | Some m =>
      source ← mapboxgl.getSource after_remove m "planes";
      match source with
      | Some src =>
          m' ← mapboxgl.setData m "planes" src geojson;
          Normal (set_map c (Some m'))
      | None => Normal c
      end
  end.

(** The [try] block, from the point where the request has ended:
    [http] is the value the promise resolved to, or what it rejected
    with. *)
Definition fetchPlanes_try (http : completion value) (c : MapComponent)
  : completion MapComponent :=
  response ← http;
  planes ← planes response;
  let geojson := FeatureCollection planes in
  publish geojson c.

Definition fetchPlanes (http : completion value) (c : MapComponent)
  : completion MapComponent :=
  match fetchPlanes_try http c with
  | Normal c' => Normal c'
  | Throw error =>
      Normal (console_error "Uçak verileri alınırken hata oluştu:" error c)
  end.

(** *** initializeMap and its load handler *)

(** The map is created and its load listener, [onLoad] below, is
    registered; the access token read from the environment plays no part
    afterwards. *)
Definition initializeMap (c : MapComponent) : MapComponent :=
  set_map c (Some (mapboxgl.new_Map style zoom (lng, lat))).

(** The callback given to [loadImage] for the image called [name]. *)
Definition imageCallback (name : string) (error : option exn)
    (image : option mapboxgl.Image) (c : MapComponent) : completion MapComponent :=
  match error with
  | Some e => Throw e
  | None =>
      match map c, image with
      | Some m, Some img =>
          m' ← mapboxgl.addImage m name img;
          Normal (set_map c (Some m'))
      | _, _ => Normal c
      end
  end.

Definition airportFeature (airport : data.Airport) : Feature :=
  turf.point [VNum (data.lon airport); VNum (data.lat airport)]
    [("name", data.name airport); ("iata", data.iata airport);
     ("icao", data.icao airport)].

Definition antalya : Feature :=
  turf.point [VNum 30.8005%float; VNum 36.9038%float] [].
Definition dusseldorf : Feature :=
  turf.point [VNum 6.7668%float; VNum 51.2895%float] [].
Definition route : Feature :=
  turf.lineString [turf.point_coordinates antalya; turf.point_coordinates dusseldorf].

Definition highlighted (country : data.Country) : bool :=
  String.eqb (data.alpha3 country) "TUR"
  || String.eqb (data.alpha3 country) "TKM"
  || String.eqb (data.alpha3 country) "RUS"
  || String.eqb (data.alpha3 country) "POL".

(** The array [matchExpression] after the loop over [data] and the
    last [push]. *)
Definition matchExpression : value :=
  let start := [VStr "match"; VArr [VStr "get"; VStr "iso_3166_1_alpha_3"]] in
  let data := List.filter highlighted countries in
  let pushed :=
    fold_left (λ expression country,
                 let color := "rgba(254,197,11,0.8)" in
                 expression ++ [VStr (data.alpha3 country); VStr color])
              data start in
  VArr (pushed ++ [VStr "rgba(0, 0, 0, 0)"]).

Definition WORLDVIEW : string := "US".
Definition worldview_filter : value :=
  VArr [VStr "all";
        VArr [VStr "=="; VArr [VStr "get"; VStr "disputed"]; VStr "false"];
        VArr [VStr "any";
              VArr [VStr "=="; VArr [VStr "get"; VStr "worldview"]; VStr "all"];
              VArr [VStr "in"; VStr WORLDVIEW; VArr [VStr "get"; VStr "worldview"]]]].

Definition airportLayer : mapboxgl.Layer :=
  {| mapboxgl.id := "airport"; mapboxgl.source := "airports";
     mapboxgl.type := mapboxgl.symbol; mapboxgl.source_layer := None;
     mapboxgl.layout := [("icon-image", VStr "airport-icon");
                         ("icon-size", VNum 0.1%float)];
     mapboxgl.paint := []; mapboxgl.filter := None |}.

Definition planesLayer : mapboxgl.Layer :=
  {| mapboxgl.id := "planes"; mapboxgl.source := "planes";
     mapboxgl.type := mapboxgl.symbol; mapboxgl.source_layer := None;
     mapboxgl.layout := [("icon-image", VStr "plane-icon");
                         ("icon-size", VNum 0.05%float);
                         ("icon-allow-overlap", VBool true);
                         ("icon-rotate", VArr [VStr "get"; VStr "heading"])];
     mapboxgl.paint := []; mapboxgl.filter := None |}.

Definition routeLayer : mapboxgl.Layer :=
  {| mapboxgl.id := "route"; mapboxgl.source := "route";
     mapboxgl.type := mapboxgl.line; mapboxgl.source_layer := None;
     mapboxgl.layout := [];
     mapboxgl.paint := [("line-color", VStr "#888");
                        ("line-width", VNum 2%float);
                        ("line-dasharray", VArr [VNum 2%float; VNum 2%float])];
     mapboxgl.filter := None |}.

Definition countriesLayer : mapboxgl.Layer :=
  {| mapboxgl.id := "countries-join"; mapboxgl.source := "countries";
     mapboxgl.type := mapboxgl.fill;
     mapboxgl.source_layer := Some "country_boundaries";
     mapboxgl.layout := [];
     mapboxgl.paint := [("fill-color", matchExpression)];
     mapboxgl.filter := Some worldview_filter |}.

(** The listener of the map's [load] event, statement by statement.
    The bodies of the pointer listeners only move the popup and are not
    represented; their registration is. *)
Definition onLoad (c : MapComponent) : completion MapComponent :=
  c ← on_map c (λ m, mapboxgl.loadImage m
                       "../../assets/img/airport.png" "airport-icon");
  let airports := snd <$> airportData in
  let features := airportFeature <$> airports in
  let airportGeoJson := turf.featureCollection features in
  c ← on_map c (λ m, mapboxgl.addSource m "airports"
                       (mapboxgl.GeoJSONSource airportGeoJson));
  c ← on_map c (λ m, mapboxgl.addLayer m airportLayer None);
  let c := set_popup c true in
  c ← on_map c (λ m, mapboxgl.on m "mousemove" "airport");
  c ← on_map c (λ m, mapboxgl.on m "mouseleave" "airport");
  c ← on_map c (λ m, mapboxgl.loadImage m
                       "../../assets/img/plane.png" "plane-icon");
  c ← on_map c (λ m, mapboxgl.addSource m "planes"
                       (mapboxgl.GeoJSONSource (FeatureCollection [])));
  c ← on_map c (λ m, mapboxgl.addLayer m planesLayer None);
  c ← on_map c (λ m, mapboxgl.on m "mousemove" "planes");
  c ← on_map c (λ m, mapboxgl.on m "mouseleave" "planes");
  c ← on_map c (λ m, mapboxgl.addSource m "route"
                       (mapboxgl.GeoJSONSource (FeatureData route)));
  c ← on_map c (λ m, mapboxgl.addLayer m routeLayer None);
  c ← on_map c (λ m, mapboxgl.addSource m "countries"
                       (mapboxgl.VectorSource "mapbox://mapbox.country-boundaries-v1"));
  on_map c (λ m, mapboxgl.addLayer m countriesLayer
                   (Some "admin-1-boundary-bg")).

(** *** ngOnDestroy *)

Definition ngOnDestroy (c : MapComponent) : MapComponent :=
  let c := match map c with
           | Some m => set_map c (Some (mapboxgl.remove m))
           | None => c
           end in
  set_isFetching c false.

End Component.

(** ** The refresh loop and the events that drive it *)

(** Where [startFetchingPlanes] is suspended: at [await this.fetchPlanes()]
    with the request in flight, at [await this.delay(ms)] with the timer
    running, or nowhere because the loop has ended. *)
Inductive Loop :=
| AwaitFetch
| AwaitDelay (ms : Z)
| Finished.

(** The component in its environment: [requests] counts the calls to
    [http.get], [timeouts] lists the delays given to [setTimeout], and
    [uncaught] the exceptions no handler caught. *)
Record System := {
  component : MapComponent;
  loop : Loop;
  loaded : bool;
  destroyed : bool;
  requests : nat;
  timeouts : list Z;
  uncaught : list exn;
}.

Definition with_component (s : System) (c : MapComponent) : System :=
  {| component := c; loop := loop s; loaded := loaded s; destroyed := destroyed s;
     requests := requests s; timeouts := timeouts s; uncaught := uncaught s |}.

Definition with_loop (s : System) (l : Loop) : System :=
  {| component := component s; loop := l; loaded := loaded s;
     destroyed := destroyed s; requests := requests s; timeouts := timeouts s;
     uncaught := uncaught s |}.

Definition with_loaded (s : System) : System :=
  {| component := component s; loop := loop s; loaded := true;
     destroyed := destroyed s; requests := requests s; timeouts := timeouts s;
     uncaught := uncaught s |}.

Definition with_destroyed (s : System) : System :=
  {| component := component s; loop := loop s; loaded := loaded s;
     destroyed := true; requests := requests s; timeouts := timeouts s;
     uncaught := uncaught s |}.

Definition throw_uncaught (e : exn) (s : System) : System :=
  {| component := component s; loop := loop s; loaded := loaded s;
     destroyed := destroyed s; requests := requests s; timeouts := timeouts s;
     uncaught := uncaught s ++ [e] |}.

(** [this.http.get<any>(allPlanesApi).toPromise()]: the request leaves. *)
Definition http_get (s : System) : System :=
  {| component := component s; loop := AwaitFetch; loaded := loaded s;
     destroyed := destroyed s; requests := S (requests s); timeouts := timeouts s;
     uncaught := uncaught s |}.

(** [this.delay(ms)]: [setTimeout(resolve, ms)]. *)
Definition delay (ms : Z) (s : System) : System :=
  {| component := component s; loop := AwaitDelay ms; loaded := loaded s;
     destroyed := destroyed s; requests := requests s;
     timeouts := timeouts s ++ [ms]; uncaught := uncaught s |}.

(** The test of [while (this.isFetching)] and the body up to its first
    [await]. *)
Definition while_isFetching (s : System) : System :=
  if isFetching (component s) then http_get s else with_loop s Finished.

Definition startFetchingPlanes (s : System) : System :=
  while_isFetching (with_component s (set_isFetching (component s) true)).

Definition ngOnInit : System :=
  startFetchingPlanes
    {| component := initializeMap constructed; loop := Finished; loaded := false;
       destroyed := false; requests := 0; timeouts := []; uncaught := [] |}.

Inductive Event :=
| MapLoad
| ImageLoaded (url : string) (error : option exn) (image : option mapboxgl.Image)
| HttpResponse (http : completion value)
| TimerFired
| Destroy.

(** The image name the callback of the request for [url] registers. *)
Fixpoint requested (url : string) (loading : list (string * string)) : option string :=
  match loading with
  | [] => None
  | (u, name) :: rest => if String.eqb u url then Some name else requested url rest
  end.

Fixpoint settle (url : string) (loading : list (string * string))
  : list (string * string) :=
  match loading with
  | [] => []
  | (u, name) :: rest => if String.eqb u url then rest else (u, name) :: settle url rest
  end.

Section Run.

Variable after_remove : option exn.
Variable airportData : list (string * data.Airport).
Variable countries : list data.Country.

(** One turn of the event loop.  [None]: the event cannot happen in
    this state. *)
Definition step (ev : Event) (s : System) : option System :=
  match ev with
  | HttpResponse http =>
      match loop s with
      | AwaitFetch =>
          match fetchPlanes after_remove http (component s) with
          | Normal c => Some (delay 1000 (with_component s c))
          | Throw e => Some (throw_uncaught e (with_loop s Finished))
          end
      | _ => None
      end
  | TimerFired =>
      match loop s with
      | AwaitDelay _ => Some (while_isFetching s)
      | _ => None
      end
  | Destroy =>
      if destroyed s then None
      else Some (with_destroyed (with_component s (ngOnDestroy (component s))))
  | MapLoad =>
      if loaded s || destroyed s then None
      else match onLoad airportData countries (component s) with
           | Normal c => Some (with_loaded (with_component s c))
           | Throw e => Some (throw_uncaught e (with_loaded s))
           end
  | ImageLoaded url error image =>
      match map (component s) with
      | Some m =>
          match requested url (mapboxgl.loading m) with
          | Some name =>
              let m := mapboxgl.with_loading m (settle url (mapboxgl.loading m)) in
              let s := with_component s (set_map (component s) (Some m)) in
              match imageCallback name error image (component s) with
              | Normal c => Some (with_component s c)
              | Throw e => Some (throw_uncaught e s)
              end
          | None => None
          end
      | None => None
      end
  end.

Fixpoint run (evs : list Event) (s : System) : option System :=
  match evs with
  | [] => Some s
  | ev :: rest =>
      match step ev s with
      | Some s' => run rest s'
      | None => None
      end
  end.

End Run.

(** The features the [planes] source of the component's map holds. *)
Definition published (c : MapComponent) : option (list Feature) :=
  match map c with
  | Some m =>
      match mapboxgl.sources m !! "planes" with
      | Some (mapboxgl.GeoJSONSource (FeatureCollection features)) => Some features
      | _ => None
      end
  | None => None
  end.

(** ** The properties as the specification words them *)

(** A value whose properties can be read: anything but [undefined] and
    [null]. *)
Definition readable (v : value) : bool :=
  match v with
  | VUndefined | VNull => false
  | _ => true
  end.

(** "latitude equals 0, or longitude equals 0, or the flight identifier
    is undefined". *)
Definition excluded (plane : value) : Prop :=
  strict_eq (field plane "lat") (VNum 0) = true
  ∨ strict_eq (field plane "lon") (VNum 0) = true
  ∨ field plane "flight" = VUndefined.

(** "non-zero latitude, non-zero longitude, and a defined flight
    identifier", decided. *)
Definition passes (plane : value) : bool :=
  negb (strict_eq (field plane "lat") (VNum 0))
  && negb (strict_eq (field plane "lon") (VNum 0))
  && negb (strict_eq (field plane "flight") VUndefined).

(** "the heading is the source track value, or 0 when that value is
    absent or falsy". *)
Definition heading_of (plane : value) : value :=
  if truthy (field plane "track") then field plane "track" else VNum 0.

(** The point a record is published as: position [[lon, lat]],
    properties [heading] and [flight]. *)
Definition point_of (plane : value) : Feature :=
  {| geometry := Point [field plane "lon"; field plane "lat"];
     properties := [("heading", heading_of plane); ("flight", field plane "flight")] |}.

(** The component holds a map that was not removed and that has a
    GeoJSON source called [planes]. *)
Definition planes_source_ready (c : MapComponent) : Prop :=
  ∃ m data, map c = Some m ∧ mapboxgl.removed m = false
            ∧ mapboxgl.sources m !! "planes" = Some (mapboxgl.GeoJSONSource data).

(** The request was rejected with [e], or its response made the
    computation of the points throw [e]. *)
Definition cycle_fails (http : completion value) (e : exn) : Prop :=
  http = Throw e ∨ ∃ response, http = Normal response ∧ planes response = Throw e.

(** [this.map?.getSource('planes')] has no source to return: there is no
    map, the map was removed, or no source of that name was added. *)
Definition source_unavailable (c : MapComponent) : Prop :=
  match map c with
  | None => True
  | Some m => mapboxgl.removed m = true ∨ mapboxgl.sources m !! "planes" = None
  end.

(** The value under [heading] in a feature's properties. *)
Definition heading (f : Feature) : value := lookup_field "heading" (properties f).

(** [c'] differs from [c] at most in its map and popup. *)
Definition same_flag (c c' : MapComponent) : Prop :=
  isFetching c' = isFetching c ∧ console c' = console c.

(** The events of as many complete cycles as there are responses: each
    response is followed by the end of the delay. *)
Definition cycles (https : list (completion value)) : list Event :=
  https ≫= λ http, [HttpResponse http; TimerFired].

(** "the highlight set (TUR, TKM, RUS, POL)", "the configured highlight
    color" and "fully transparent". *)
Definition highlight_set : list string := ["TUR"; "TKM"; "RUS"; "POL"].
Definition highlight_color : string := "rgba(254,197,11,0.8)".
Definition transparent : string := "rgba(0, 0, 0, 0)".

(** The branches of a [match] over the given codes, all with the
    highlight colour, and the transparent fallback. *)
Fixpoint branches_of (codes : list string) : list value :=
  match codes with
  | [] => [VStr transparent]
  | code :: rest => VStr code :: VStr highlight_color :: branches_of rest
  end.

(** The map [initializeMap] creates. *)
Definition fresh_map : mapboxgl.Map := mapboxgl.new_Map style zoom (lng, lat).

(** The source the load handler adds under [route]. *)
Definition ROUTE : mapboxgl.Source := mapboxgl.GeoJSONSource (FeatureData route).

(** Everything the load handler registers is on the map: the four
    sources, the four layers and the four pointer listeners. *)
Definition initialized (airportData : list (string * data.Airport))
    (countries : list data.Country) (m : mapboxgl.Map) : Prop :=
  mapboxgl.sources m !! "airports"
  = Some (mapboxgl.GeoJSONSource
            (turf.featureCollection (airportFeature <$> (snd <$> airportData))))
  ∧ (∃ data, mapboxgl.sources m !! "planes" = Some (mapboxgl.GeoJSONSource data))
  ∧ mapboxgl.sources m !! "route" = Some ROUTE
  ∧ mapboxgl.sources m !! "countries"
    = Some (mapboxgl.VectorSource "mapbox://mapbox.country-boundaries-v1")
  ∧ mapboxgl.layers m
    = [(airportLayer, None); (planesLayer, None); (routeLayer, None);
       (countriesLayer countries, Some "admin-1-boundary-bg")]
  ∧ mapboxgl.listeners m
    = [("mousemove", "airport"); ("mouseleave", "airport");
       ("mousemove", "planes"); ("mouseleave", "planes")].

(** The countries table gives the fill colour at least one branch and
    no label twice: it lists a code of the highlight set, and none of
    them more than once. *)
Definition table_usable (countries : list data.Country) : Prop :=
  let listed :=
    List.filter (λ code, bool_decide (code ∈ highlight_set)) (data.alpha3 <$> countries) in
  listed ≠ [] ∧ NoDup listed.

(** The layers on the map after the load handler, in the order of the
    calls: [countries-join] is among them when the style validation
    accepts its fill colour. *)
Definition setup_layers (countries : list data.Country)
  : list (mapboxgl.Layer * option string) :=
  if mapboxgl.valid_layer (countriesLayer countries)
  then [(airportLayer, None); (planesLayer, None); (routeLayer, None);
        (countriesLayer countries, Some "admin-1-boundary-bg")]
  else [(airportLayer, None); (planesLayer, None); (routeLayer, None)].

(** What the load handler registers for any countries table: the four
    sources, the layers of [setup_layers] and the four pointer
    listeners. *)
Definition set_up (airportData : list (string * data.Airport))
    (countries : list data.Country) (m : mapboxgl.Map) : Prop :=
  mapboxgl.sources m !! "airports"
  = Some (mapboxgl.GeoJSONSource
            (turf.featureCollection (airportFeature <$> (snd <$> airportData))))
  ∧ (∃ data, mapboxgl.sources m !! "planes" = Some (mapboxgl.GeoJSONSource data))
  ∧ mapboxgl.sources m !! "route" = Some ROUTE
  ∧ mapboxgl.sources m !! "countries"
    = Some (mapboxgl.VectorSource "mapbox://mapbox.country-boundaries-v1")
  ∧ mapboxgl.layers m = setup_layers countries
  ∧ mapboxgl.listeners m
    = [("mousemove", "airport"); ("mouseleave", "airport");
       ("mousemove", "planes"); ("mouseleave", "planes")].

(** The map as the load handler leaves a fresh map. *)
Definition loaded_map (airportData : list (string * data.Airport))
    (countries : list data.Country) : mapboxgl.Map :=
  {| mapboxgl.style := style; mapboxgl.zoom := zoom; mapboxgl.center := (lng, lat);
     mapboxgl.removed := false;
     mapboxgl.images := ∅;
     mapboxgl.sources :=
       <["countries" := mapboxgl.VectorSource "mapbox://mapbox.country-boundaries-v1"]>
         (<["route" := ROUTE]>
            (<["planes" := mapboxgl.GeoJSONSource (FeatureCollection [])]>
               (<["airports" := mapboxgl.GeoJSONSource
                    (turf.featureCollection (airportFeature <$> (snd <$> airportData)))]>
                  ∅)));
     mapboxgl.layers := setup_layers countries;
     mapboxgl.listeners :=
       [("mousemove", "airport"); ("mouseleave", "airport");
        ("mousemove", "planes"); ("mouseleave", "planes")];
     mapboxgl.loading :=
       [("../../assets/img/airport.png", "airport-icon");
        ("../../assets/img/plane.png", "plane-icon")] |}.

(** Along every run from [ngOnInit]: before the load event the map is
    the fresh map; after it, and until the component is destroyed, the
    map holds what the load handler registered; once destroyed, the map
    holds no layer and no source. *)
Definition setup_invariant (airportData : list (string * data.Airport))
    (countries : list data.Country) (s : System) : Prop :=
  (loaded s = false → destroyed s = false → map (component s) = Some fresh_map)
  ∧ (loaded s = true → destroyed s = false →
     ∃ m, map (component s) = Some m ∧ mapboxgl.removed m = false
          ∧ set_up airportData countries m)
  ∧ (destroyed s = true →
     ∃ m, map (component s) = Some m ∧ mapboxgl.layers m = []
          ∧ mapboxgl.sources m = ∅).

(** ** Sample data *)

Definition sample_countries : list data.Country :=
  data.Build_Country <$> ["DEU"; "POL"; "RUS"; "TKM"; "TUR"; "USA"].

Definition sample_records : list value :=
  [ VObj [("lat", VNum 41.0%float); ("lon", VNum 29.0%float);
          ("flight", VStr "THY1"); ("track", VNum 90%float)];
    VObj [("lat", VNum 0%float); ("lon", VNum 28.5%float);
          ("flight", VStr "PGT2"); ("track", VNum 10%float)];
    VObj [("lat", VNum 40.0%float); ("lon", VNum 30.0%float);
          ("track", VNum 180%float)];
    VObj [("lat", VNum 39.5%float); ("lon", VNum 32.5%float);
          ("flight", VStr "SXS3")] ].

Definition sample_response : value := VObj [("ac", VArr sample_records)].

(** A component whose map holds a [planes] source with three points. *)
Definition sample_map : mapboxgl.Map :=
  mapboxgl.with_sources (mapboxgl.new_Map style zoom (lng, lat))
    {[ "planes" := mapboxgl.GeoJSONSource
                     (FeatureCollection (point_of <$> [ VObj [("flight", VStr "A")];
                                                        VObj [("flight", VStr "B")];
                                                        VObj [("flight", VStr "C")] ])) ]}.

Definition sample_component : MapComponent :=
  {| map := Some sample_map; popup := true; isFetching := true; console := [] |}.

(** After the load event, two refresh cycles and a failed icon load. *)
Definition sample_events : list Event :=
  [ MapLoad;
    HttpResponse (Normal sample_response);
    TimerFired;
    ImageLoaded "../../assets/img/airport.png" (Some (Error "404")) None;
    HttpResponse (Throw (HttpErrorResponse 503));
    TimerFired ].

(** The state right after the load event. *)
Definition sample_loaded : System :=
  with_loaded (with_component ngOnInit
    {| map := Some (loaded_map [] sample_countries); popup := true;
       isFetching := true; console := [] |}).

(** ** Further properties of the component *)

(** Requests and delays keep in step: every delay is 1000 ms, and the
    requests sent are the delays started, plus the one request in flight
    while the loop waits for a response. *)
Definition in_step (s : System) : Prop :=
  Forall (λ ms, ms = 1000%Z) (timeouts s)
  ∧ match loop s with
    | AwaitFetch => requests s = S (length (timeouts s))
    | AwaitDelay ms => ms = 1000%Z ∧ requests s = length (timeouts s)
    | Finished => requests s = length (timeouts s)
    end.

(** The sources of the component's map; none without a map. *)
Definition sources_of (c : MapComponent) : gmap string mapboxgl.Source :=
  match map c with
  | Some m => mapboxgl.sources m
  | None => ∅
  end.

(** The names of the sources the load handler adds. *)
Definition setup_sources : gset string :=
  {[ "airports"; "planes"; "route"; "countries" ]}.

(** The delays a loop in this state can still start once the flag is
    cleared: one when a request is in flight, none otherwise. *)
Definition delays_left (l : Loop) : nat :=
  match l with
  | AwaitFetch => 1
  | AwaitDelay _ | Finished => 0
  end.

(** ** The pointer listeners *)







Section Pointer.

(** The conversion of a number to a string in a template literal, which
    is not represented. *)
Variable number_to_string : float → string.





End Pointer.


(** ** Evaluation of the layer filter *)

Module expression.

(** [hay.indexOf(needle) >= 0]. *)
Fixpoint contains (needle hay : string) : bool :=
  String.prefix needle hay
  || match hay with
     | EmptyString => false
     | String _ rest => contains needle rest
     end.

(** The operators the filter of the countries layer uses, as the style
    specification defines them on strings: a literal is itself; [get]
    reads a property of the feature, [null] when it is missing; [==]
    compares two values; [in] looks for a substring; [all] and [any]
    evaluate their arguments from the left and stop at the first that
    decides.  [None]: the evaluation fails, or the expression is outside
    this fragment. *)
Fixpoint evaluate (e : value) (props : gmap string value) {struct e} : option value :=
  match e with
  | VStr s => Some (VStr s)
  | VBool b => Some (VBool b)
  | VNum x => Some (VNum x)
  | VArr (VStr op :: args) =>
      if String.eqb op "get" then
        match args with
        | [VStr name] => Some (default VNull (props !! name))
        | _ => None
        end
      else if String.eqb op "==" then
        match args with
        | [a; b] =>
            match evaluate a props, evaluate b props with
            | Some x, Some y => Some (VBool (strict_eq x y))
            | _, _ => None
            end
        | _ => None
        end
      else if String.eqb op "in" then
        match args with
        | [a; b] =>
            match evaluate a props, evaluate b props with
            | Some (VStr needle), Some (VStr hay) => Some (VBool (contains needle hay))
            | _, _ => None
            end
        | _ => None
        end
      else if String.eqb op "all" then
        (fix all (l : list value) : option value :=
           match l with
           | [] => Some (VBool true)
           | a :: rest =>
               match evaluate a props with
               | Some (VBool true) => all rest
               | Some (VBool false) => Some (VBool false)
               | _ => None
               end
           end) args
      else if String.eqb op "any" then
        (fix any (l : list value) : option value :=
           match l with
           | [] => Some (VBool false)
           | a :: rest =>
               match evaluate a props with
               | Some (VBool false) => any rest
               | Some (VBool true) => Some (VBool true)
               | _ => None
               end
           end) args
      else None
  | _ => None
  end.

End expression.

(** ** The earlier copy of the component (src/unnamed/part_000) *)

Module part_000.

(** The fields of this [MapComponent], and the calls made to
    [console.log] so far. *)
Record MapComponent := {
  map : option mapboxgl.Map;
  popup : bool;
  console : list (string * list float);
}.

Definition set_map (c : MapComponent) (m : option mapboxgl.Map) : MapComponent :=
  {| map := m; popup := popup c; console := console c |}.

Definition set_popup (c : MapComponent) (p : bool) : MapComponent :=
  {| map := map c; popup := p; console := console c |}.

Definition console_log (msg : string) (numbers : list float) (c : MapComponent)
  : MapComponent :=
  {| map := map c; popup := popup c; console := console c ++ [(msg, numbers)] |}.

Definition constructed : MapComponent :=
  {| map := None; popup := false; console := [] |}.

(** A block of statements run in order: the first throw ends the block,
    and what the statements before it did stays done. *)
Fixpoint statements (body : list (MapComponent → completion MapComponent))
    (c : MapComponent) : MapComponent * option exn :=
  match body with
  | [] => (c, None)
  | statement :: rest =>
      match statement c with
      | Normal c' => statements rest c'
      | Throw e => (c, Some e)
      end
  end.

(** [this.map?.f(...)] for a call that changes the map. *)
Definition on_map (f : mapboxgl.Map → completion mapboxgl.Map) (c : MapComponent)
  : completion MapComponent :=
  match map c with
  | None => Normal c
  | Some m => m' ← f m; Normal (set_map c (Some m'))
  end.

(** [Math.PI] and [toRadians]. *)
Definition PI : float := 3.141592653589793%float.
Definition toRadians (degrees : float) : float := ((degrees * PI) / 180)%float.

Definition routeLayer : mapboxgl.Layer :=
  {| mapboxgl.id := "route"; mapboxgl.source := "route";
     mapboxgl.type := mapboxgl.line; mapboxgl.source_layer := None;
     mapboxgl.layout := [];
     mapboxgl.paint := [("line-color", VStr "#FF5733");
                        ("line-width", VNum 2%float);
                        ("line-dasharray", VArr [VNum 2%float; VNum 2%float])];
     mapboxgl.filter := None |}.

Definition planeLayer : mapboxgl.Layer :=
  {| mapboxgl.id := "plane"; mapboxgl.source := "route";
     mapboxgl.type := mapboxgl.symbol; mapboxgl.source_layer := None;
     mapboxgl.layout := [("icon-image", VStr "plane-icon");
                         ("icon-size", VNum 0.05%float);
                         ("icon-anchor", VStr "bottom");
                         ("icon-offset", VArr [VNum 0%float; VNum 90%float]);
                         ("icon-rotate", VNum 180%float)];
     mapboxgl.paint := []; mapboxgl.filter := None |}.

Definition highlighted (country : data.Country) : bool :=
  String.eqb (data.alpha3 country) "TUR"
  || String.eqb (data.alpha3 country) "RUS"
  || String.eqb (data.alpha3 country) "POL".

Section Callbacks.

Variable airportData : list (string * data.Airport).
Variable countries : list data.Country.

Definition matchExpression : value :=
  let start := [VStr "match"; VArr [VStr "get"; VStr "iso_3166_1_alpha_3"]] in
  let data := List.filter highlighted countries in
  let pushed :=
    fold_left (λ expression country,
                 let color := "rgba(254,197,11,0.8)" in
                 expression ++ [VStr (data.alpha3 country); VStr color])
              data start in
  VArr (pushed ++ [VStr "rgba(0, 0, 0, 0)"]).

Definition countriesLayer : mapboxgl.Layer :=
  {| mapboxgl.id := "countries-join"; mapboxgl.source := "countries";
     mapboxgl.type := mapboxgl.fill;
     mapboxgl.source_layer := Some "country_boundaries";
     mapboxgl.layout := [];
     mapboxgl.paint := [("fill-color", matchExpression)];
     mapboxgl.filter := Some worldview_filter |}.

(** [if (error) throw error;] *)
Definition throw_if (error : option exn) (c : MapComponent) : completion MapComponent :=
  match error with
  | Some e => Throw e
  | None => Normal c
  end.

(** [if (this.map && image) { this.map.addImage(name, image); }] *)
Definition add_image (name : string) (image : option mapboxgl.Image) (c : MapComponent)
  : completion MapComponent :=
  match map c, image with
  | Some m, Some img =>
      m' ← mapboxgl.addImage m name img;
      Normal (set_map c (Some m'))
  | _, _ => Normal c
  end.

(** The callback of the load of the plane image. *)
Definition planeCallback (error : option exn) (image : option mapboxgl.Image)
  : list (MapComponent → completion MapComponent) :=
  [ throw_if error; add_image "plane-icon" image ].

(** The callback of the load of the airport image: after the image, it
    holds the rest of the setup.  The constants [dx], [dy] and [bearing]
    it computes are used nowhere and are left out. *)
Definition airportCallback (error : option exn) (image : option mapboxgl.Image)
  : list (MapComponent → completion MapComponent) :=
  let airports := snd <$> airportData in
  let features := airportFeature <$> airports in
  let airportGeoJson := turf.featureCollection features in
  let antalyaDerece := [30.8005%float; 36.9038%float] in
  let dusseldorfDerece := [6.7668%float; 51.2895%float] in
  let antalyaRadyan := toRadians <$> antalyaDerece in
  let dusseldorfRadyan := toRadians <$> dusseldorfDerece in
  [ throw_if error;
    add_image "airport-icon" image;
    on_map (λ m, mapboxgl.loadImage m
                   "../../assets/img/plane.png" "plane-icon");
    on_map (λ m, mapboxgl.addSource m "countries"
                   (mapboxgl.VectorSource "mapbox://mapbox.country-boundaries-v1"));
    on_map (λ m, mapboxgl.addSource m "airports"
                   (mapboxgl.GeoJSONSource airportGeoJson));
    on_map (λ m, mapboxgl.addLayer m airportLayer None);
    (λ c, Normal (set_popup c true));
    on_map (λ m, mapboxgl.on m "mousemove" "airport");
    on_map (λ m, mapboxgl.on m "mouseleave" "airport");
    on_map (λ m, mapboxgl.addSource m "route"
                   (mapboxgl.GeoJSONSource (FeatureData route)));
    on_map (λ m, mapboxgl.addLayer m routeLayer None);
    (λ c, Normal (console_log "Antalya koordinatları (Radyan):" antalyaRadyan c));
    (λ c, Normal (console_log "Düsseldorf koordinatları (Radyan):" dusseldorfRadyan c));
    on_map (λ m, mapboxgl.addLayer m planeLayer None);
    on_map (λ m, mapboxgl.addLayer m countriesLayer
                   (Some "admin-1-boundary-bg")) ].

(** The listener of the map's [load] event. *)
Definition onLoad : list (MapComponent → completion MapComponent) :=
  [ on_map (λ m, mapboxgl.loadImage m
                   "../../assets/img/airport.png" "airport-icon") ].

End Callbacks.

(** [ngOnInit] creates the map and registers [onLoad]. *)
Definition ngOnInit (c : MapComponent) : MapComponent :=
  set_map c (Some (mapboxgl.new_Map style zoom (lng, lat))).

Definition ngOnDestroy (c : MapComponent) : MapComponent :=
  match map c with
  | Some m => set_map c (Some (mapboxgl.remove m))
  | None => c
  end.

(** The component in its environment. *)
Record System := {
  component : MapComponent;
  loaded : bool;
  destroyed : bool;
  uncaught : list exn;
}.

Definition started : System :=
  {| component := ngOnInit constructed; loaded := false; destroyed := false;
     uncaught := [] |}.

Inductive Event :=
| MapLoad
| ImageLoaded (url : string) (error : option exn) (image : option mapboxgl.Image)
| Destroy.

(** The state after a block of statements run as a listener or a
    callback: an error it throws is uncaught. *)
Definition after_block (s : System) (loaded : bool) (r : MapComponent * option exn)
  : System :=
  {| component := fst r; loaded := loaded; destroyed := destroyed s;
     uncaught := uncaught s ++ match snd r with Some e => [e] | None => [] end |}.

Section Run.

Variable airportData : list (string * data.Airport).
Variable countries : list data.Country.

Definition step (ev : Event) (s : System) : option System :=
  match ev with
  | MapLoad =>
      if loaded s || destroyed s then None
      else Some (after_block s true (statements onLoad (component s)))
  | ImageLoaded url error image =>
      match map (component s) with
      | Some m =>
          match requested url (mapboxgl.loading m) with
          | Some name =>
              let m := mapboxgl.with_loading m (settle url (mapboxgl.loading m)) in
              let c := set_map (component s) (Some m) in
              let callback :=
                if String.eqb name "airport-icon"
                then airportCallback airportData countries error image
                else planeCallback error image in
              Some (after_block s (loaded s) (statements callback c))
          | None => None
          end
      | None => None
      end
  | Destroy =>
      if destroyed s then None
      else Some {| component := ngOnDestroy (component s); loaded := loaded s;
                   destroyed := true; uncaught := uncaught s |}
  end.

Fixpoint run (evs : list Event) (s : System) : option System :=
  match evs with
  | [] => Some s
  | ev :: rest =>
      match step ev s with
      | Some s' => run rest s'
      | None => None
      end
  end.

End Run.

End part_000.

(** The countries table gives the fill colour of the earlier copy at
    least one branch and no label twice. *)
Definition earlier_table_usable (countries : list data.Country) : Prop :=
  let listed :=
    List.filter (λ code, bool_decide (code ∈ ["TUR"; "RUS"; "POL"]))
                (data.alpha3 <$> countries) in
  listed ≠ [] ∧ NoDup listed.

(** The map as the airport callback of the earlier copy leaves it, with
    the airport image when there was one. *)
Definition earlier_map (airportData : list (string * data.Airport))
    (countries : list data.Country) (image : option mapboxgl.Image) : mapboxgl.Map :=
  {| mapboxgl.style := style; mapboxgl.zoom := zoom; mapboxgl.center := (lng, lat);
     mapboxgl.removed := false;
     mapboxgl.images := match image with
                        | Some img => <["airport-icon" := img]> ∅
                        | None => ∅
                        end;
     mapboxgl.sources :=
       <["route" := ROUTE]>
         (<["airports" := mapboxgl.GeoJSONSource
              (turf.featureCollection (airportFeature <$> (snd <$> airportData)))]>
            (<["countries" := mapboxgl.VectorSource "mapbox://mapbox.country-boundaries-v1"]>
               ∅));
     mapboxgl.layers :=
       if mapboxgl.valid_layer (part_000.countriesLayer countries)
       then [(airportLayer, None); (part_000.routeLayer, None);
             (part_000.planeLayer, None);
             (part_000.countriesLayer countries, Some "admin-1-boundary-bg")]
       else [(airportLayer, None); (part_000.routeLayer, None);
             (part_000.planeLayer, None)];
     mapboxgl.listeners := [("mousemove", "airport"); ("mouseleave", "airport")];
     mapboxgl.loading := [("../../assets/img/plane.png", "plane-icon")] |}.

(** ** Reading records *)

Lemma get_readable (v : value) (p : string) :
  readable v = true → get v p = Normal (field v p).
Proof. by destruct v. Qed.

Lemma get_unreadable (v : value) (p : string) :
  readable v = false → ∃ e, get v p = Throw e.
Proof. destruct v; try done; intros _; eexists; reflexivity. Qed.

Lemma strict_eq_undefined (v : value) :
  strict_eq v VUndefined = true ↔ v = VUndefined.
Proof. destruct v; simpl; split; congruence. Qed.

Lemma passes_false_iff (plane : value) : passes plane = false ↔ excluded plane.
Proof.
  unfold passes, excluded. rewrite <- strict_eq_undefined.
  destruct (strict_eq (field plane "lat") (VNum 0)),
    (strict_eq (field plane "lon") (VNum 0)),
    (strict_eq (field plane "flight") VUndefined); simpl; intuition congruence.
Qed.

Lemma passes_true_iff (plane : value) : passes plane = true ↔ ¬ excluded plane.
Proof.
  rewrite <- passes_false_iff. destruct (passes plane); split; congruence.
Qed.

Lemma keep_readable (plane : value) :
  readable plane = true → keep plane = Normal (passes plane).
Proof.
  intros Hr. unfold keep, passes. rewrite !(get_readable _ _ Hr). simpl.
  destruct (strict_eq (field plane "lat") (VNum 0)); simpl; [done|].
  by destruct (strict_eq (field plane "lon") (VNum 0)).
Qed.

Lemma keep_unreadable (plane : value) :
  readable plane = false → ∃ e, keep plane = Throw e.
Proof.
  intros Hr. destruct (get_unreadable plane "lat" Hr) as [e He].
  exists e. unfold keep. by rewrite He.
Qed.

Lemma toFeature_readable (plane : value) :
  readable plane = true → toFeature plane = Normal (point_of plane).
Proof.
  intros Hr. unfold toFeature. by rewrite !(get_readable _ _ Hr).
Qed.

Lemma filterM_keep (items : list value) :
  Forall (λ plane, readable plane = true) items →
  filterM keep items = Normal (List.filter passes items).
Proof.
  induction 1 as [|plane items Hr _ IH]; [done|].
  simpl. rewrite (keep_readable _ Hr), IH. simpl.
  by destruct (passes plane).
Qed.

Lemma filterM_keep_inv (items kept : list value) :
  filterM keep items = Normal kept →
  Forall (λ plane, readable plane = true) items.
Proof.
  revert kept. induction items as [|plane items IH]; intros kept H; [constructor|].
  simpl in H. destruct (readable plane) eqn:Hr.
  - constructor; [done|].
    rewrite (keep_readable _ Hr) in H. simpl in H.
    destruct (filterM keep items) as [k|e]; [by eapply IH | done].
  - destruct (keep_unreadable _ Hr) as [e He]. by rewrite He in H.
Qed.

Lemma mapM_toFeature (kept : list value) :
  Forall (λ plane, readable plane = true) kept →
  mapM toFeature kept = Normal (point_of <$> kept).
Proof.
  induction 1 as [|plane kept Hr _ IH]; [done|].
  simpl. by rewrite (toFeature_readable _ Hr), IH.
Qed.

Lemma Forall_filter_bool {A : Type} (P : A → Prop) (f : A → bool) (l : list A) :
  Forall P l → Forall P (List.filter f l).
Proof.
  induction 1 as [|x l Hx _ IH]; simpl; [constructor|].
  destruct (f x); [by constructor | done].
Qed.

(** A response whose [ac] is an array of readable values yields the
    points of the records that pass, in their order. *)
Lemma planes_records (response : value) (items : list value) :
  get response "ac" = Normal (VArr items) →
  Forall (λ plane, readable plane = true) items →
  planes response = Normal (point_of <$> List.filter passes items).
Proof.
  intros Hac Hitems. unfold planes. rewrite Hac. simpl.
  rewrite (filterM_keep _ Hitems). simpl.
  apply mapM_toFeature. by apply Forall_filter_bool.
Qed.

(** Conversely, the computation only succeeds on such a response. *)
Lemma planes_Normal_inv (response : value) (features : list Feature) :
  planes response = Normal features →
  ∃ items, get response "ac" = Normal (VArr items)
           ∧ Forall (λ plane, readable plane = true) items
           ∧ features = point_of <$> List.filter passes items.
Proof.
  unfold planes. intros H.
  destruct (get response "ac") as [ac|e] eqn:Hac; [|done]. simpl in H.
  destruct ac as [| | | | |items|]; try done. simpl in H.
  destruct (filterM keep items) as [kept|e] eqn:Hk; [|done].
  pose proof (filterM_keep_inv _ _ Hk) as Hitems.
  exists items. split; [done|]. split; [done|].
  pose proof (planes_records response items Hac Hitems) as Hp.
  unfold planes in Hp. rewrite Hac in Hp. simpl in Hp. rewrite Hk in Hp.
  simpl in Hp. simpl in H. congruence.
Qed.

Lemma point_of_passes (p q : value) : point_of p = point_of q → passes p = passes q.
Proof.
  unfold point_of, passes. intros H. injection H as Hlon Hlat _ Hflight.
  by rewrite Hlon, Hlat, Hflight.
Qed.

(** ** One refresh cycle *)

Section Cycle.

Variable after_remove : option exn.

Lemma publish_ready (geojson : GeoJSON) (c : MapComponent) :
  planes_source_ready c →
  ∃ m, map c = Some m
       ∧ publish after_remove geojson c
         = Normal (set_map c (Some (mapboxgl.with_sources m
                     (<["planes" := mapboxgl.GeoJSONSource geojson]> (mapboxgl.sources m))))).
Proof.
  intros (m & old & Hm & Hlive & Hsrc). exists m. split; [done|].
  unfold publish, mapboxgl.getSource.
  by rewrite Hm, Hlive, Hsrc.
Qed.


(** A cycle whose request and processing succeed, on a component whose
    source is there, stores exactly the computed points. *)
Lemma fetchPlanes_publishes (response : value) (features : list Feature)
    (c : MapComponent) :
  planes response = Normal features →
  planes_source_ready c →
  ∃ c', fetchPlanes after_remove (Normal response) c = Normal c'
        ∧ published c' = Some features
        ∧ console c' = console c
        ∧ isFetching c' = isFetching c.
Proof.
  intros Hplanes Hready.
  destruct (publish_ready (FeatureCollection features) c Hready) as (m & Hm & Hpub).
  eexists. unfold fetchPlanes, fetchPlanes_try. simpl. rewrite Hplanes. simpl.
  rewrite Hpub. split; [done|].
  unfold published. simpl. by rewrite lookup_insert_eq.
Qed.

(** The [catch] block makes [fetchPlanes] total: it never throws. *)
Lemma fetchPlanes_total (http : completion value) (c : MapComponent) :
  ∃ c', fetchPlanes after_remove http c = Normal c'.
Proof.
  unfold fetchPlanes. destruct (fetchPlanes_try after_remove http c); eauto.
Qed.

Lemma fetchPlanes_fails (http : completion value) (e : exn) (c : MapComponent) :
  cycle_fails http e →
  fetchPlanes after_remove http c
  = Normal (console_error "Uçak verileri alınırken hata oluştu:" e c).
Proof.
  unfold fetchPlanes, fetchPlanes_try.
  intros [->|(response & -> & Hp)]; simpl; [done|]. by rewrite Hp.
Qed.

End Cycle.

Lemma sublist_filter_bool {A : Type} (f : A → bool) (l : list A) :
  List.filter f l `sublist_of` l.
Proof.
  induction l as [|x l IH]; simpl; [constructor|].
  destruct (f x); by constructor.
Qed.

Lemma filter_none_pass (items : list value) :
  Forall (λ plane, passes plane = false) items → List.filter passes items = [].
Proof.
  induction 1 as [|plane items Hp _ IH]; [done|]. simpl. by rewrite Hp.
Qed.

(** A response with no collection under [ac], or with something else
    than an array there, makes the computation of the points throw. *)
Lemma planes_without_collection (response : value) :
  (∀ items, field response "ac" ≠ VArr items) → ∃ e, planes response = Throw e.
Proof.
  intros Hno. unfold planes.
  destruct (readable response) eqn:Hr.
  - rewrite (get_readable _ _ Hr). simpl.
    destruct (field response "ac") as [| | | | |items|] eqn:Hac;
      simpl; eauto. by destruct (Hno items).
  - destruct (get_unreadable response "ac" Hr) as [e He]. rewrite He. eauto.
Qed.

(** ** The filter (C2), the heading (C3), the shape of the points (C10) *)

(** C2: of the records of a fetched collection, exactly those with a
    latitude equal to 0, a longitude equal to 0 or an undefined flight
    identifier are left out of the published points; every other record
    is published. *)
Theorem filter_excludes_exactly (after_remove : option exn) (c : MapComponent)
    (response : value) (items : list value)
    (Hac : get response "ac" = Normal (VArr items))
    (Hitems : Forall (λ plane, readable plane = true) items)
    (Hready : planes_source_ready c) :
  ∃ c' features,
    fetchPlanes after_remove (Normal response) c = Normal c'
    ∧ published c' = Some features
    ∧ features = point_of <$> List.filter passes items
    ∧ ∀ plane, plane ∈ items →
        (excluded plane → point_of plane ∉ features)
        ∧ (¬ excluded plane → point_of plane ∈ features).
Proof.
  pose proof (planes_records response items Hac Hitems) as Hplanes.
  destruct (fetchPlanes_publishes after_remove _ _ c Hplanes Hready)
    as (c' & Hfetch & Hpub & _).
  exists c', (point_of <$> List.filter passes items).
  split; [done|]. split; [done|]. split; [done|].
  intros plane Hin. split.
  - intros Hex Hmem. apply list_elem_of_fmap in Hmem as (q & Hq & Hqin).
    apply list_elem_of_In, filter_In in Hqin as [_ Hqpass].
    apply passes_false_iff in Hex. apply point_of_passes in Hq. congruence.
  - intros Hnex. apply list_elem_of_fmap. exists plane. split; [done|].
    apply list_elem_of_In, filter_In. split; [by apply list_elem_of_In|].
    by apply passes_true_iff.
Qed.

Lemma filter_excludes_exactly_witness :
  ∃ c' features,
    fetchPlanes None (Normal sample_response) sample_component = Normal c'
    ∧ published c' = Some features
    ∧ features = point_of <$> List.filter passes sample_records
    ∧ ∀ plane, plane ∈ sample_records →
        (excluded plane → point_of plane ∉ features)
        ∧ (¬ excluded plane → point_of plane ∈ features).
Proof.
  apply (filter_excludes_exactly None sample_component sample_response sample_records).
  - reflexivity.
  - repeat constructor.
  - eexists _, _. repeat split; reflexivity.
Defined.

(** C3: the point published for a record that passes the filter has, as
    its heading, the record's track when that value is truthy, and 0 when
    the track is absent or falsy. *)
Theorem heading_is_track_or_zero (after_remove : option exn) (c : MapComponent)
    (response : value) (items : list value)
    (Hac : get response "ac" = Normal (VArr items))
    (Hitems : Forall (λ plane, readable plane = true) items)
    (Hready : planes_source_ready c) :
  ∃ c' features,
    fetchPlanes after_remove (Normal response) c = Normal c'
    ∧ published c' = Some features
    ∧ Forall2 (λ plane f,
                 (truthy (field plane "track") = true → heading f = field plane "track")
                 ∧ (truthy (field plane "track") = false → heading f = VNum 0)
                 ∧ (field plane "track" = VUndefined → heading f = VNum 0))
              (List.filter passes items) features.
Proof.
  pose proof (planes_records response items Hac Hitems) as Hplanes.
  destruct (fetchPlanes_publishes after_remove _ _ c Hplanes Hready)
    as (c' & Hfetch & Hpub & _).
  exists c', (point_of <$> List.filter passes items).
  split; [done|]. split; [done|].
  apply Forall2_fmap_r, Forall_Forall2_diag, Forall_forall.
  intros plane _. unfold heading, point_of, heading_of. simpl.
  destruct (truthy (field plane "track")) eqn:Ht; repeat split; try done.
  intros Hu. rewrite Hu in Ht. done.
Qed.

Lemma heading_is_track_or_zero_witness :
  ∃ c' features,
    fetchPlanes None (Normal sample_response) sample_component = Normal c'
    ∧ published c' = Some features
    ∧ Forall2 (λ plane f,
                 (truthy (field plane "track") = true → heading f = field plane "track")
                 ∧ (truthy (field plane "track") = false → heading f = VNum 0)
                 ∧ (field plane "track" = VUndefined → heading f = VNum 0))
              (List.filter passes sample_records) features.
Proof.
  apply (heading_is_track_or_zero None sample_component sample_response sample_records).
  - reflexivity.
  - repeat constructor.
  - eexists _, _. repeat split; reflexivity.
Defined.

(** C10: every published point is a GeoJSON Point at [[lon, lat]] of its
    record, its properties are [heading] and [flight] and nothing else,
    and the points follow the order of their records in the fetched
    collection. *)
Theorem published_points_shape (after_remove : option exn) (c : MapComponent)
    (response : value) (items : list value)
    (Hac : get response "ac" = Normal (VArr items))
    (Hitems : Forall (λ plane, readable plane = true) items)
    (Hready : planes_source_ready c) :
  ∃ c' features kept,
    fetchPlanes after_remove (Normal response) c = Normal c'
    ∧ published c' = Some features
    ∧ kept `sublist_of` items
    ∧ Forall2 (λ plane f,
                 geometry f = Point [field plane "lon"; field plane "lat"]
                 ∧ (properties f).*1 = ["heading"; "flight"]
                 ∧ lookup_field "flight" (properties f) = field plane "flight")
              kept features.
Proof.
  pose proof (planes_records response items Hac Hitems) as Hplanes.
  destruct (fetchPlanes_publishes after_remove _ _ c Hplanes Hready)
    as (c' & Hfetch & Hpub & _).
  exists c', (point_of <$> List.filter passes items), (List.filter passes items).
  split; [done|]. split; [done|]. split; [apply sublist_filter_bool|].
  apply Forall2_fmap_r, Forall_Forall2_diag, Forall_forall.
  by intros plane _.
Qed.

Lemma published_points_shape_witness :
  ∃ c' features kept,
    fetchPlanes None (Normal sample_response) sample_component = Normal c'
    ∧ published c' = Some features
    ∧ kept `sublist_of` sample_records
    ∧ Forall2 (λ plane f,
                 geometry f = Point [field plane "lon"; field plane "lat"]
                 ∧ (properties f).*1 = ["heading"; "flight"]
                 ∧ lookup_field "flight" (properties f) = field plane "flight")
              kept features.
Proof.
  apply (published_points_shape None sample_component sample_response sample_records).
  - reflexivity.
  - repeat constructor.
  - eexists _, _. repeat split; reflexivity.
Defined.

(** ** Replacement (C4), failure (C1) and the missing source (C9) *)

(** C4: a cycle whose request and processing succeed, on a map that has
    the source, leaves in the [planes] source exactly the points computed
    from this response, whatever the source held before; when no record
    of the response passes, the source holds the empty collection. *)
Theorem cycle_replaces_collection (after_remove : option exn) (c : MapComponent)
    (response : value) (features : list Feature)
    (Hok : planes response = Normal features)
    (Hready : planes_source_ready c) :
  ∃ c', fetchPlanes after_remove (Normal response) c = Normal c'
        ∧ published c' = Some features
        ∧ (∀ f fs, published c' = Some fs → f ∈ fs → f ∈ features)
        ∧ (∀ items, get response "ac" = Normal (VArr items) →
             Forall (λ plane, passes plane = false) items →
             published c' = Some []).
Proof.
  destruct (fetchPlanes_publishes after_remove _ _ c Hok Hready)
    as (c' & Hfetch & Hpub & _).
  exists c'. split; [done|]. split; [done|]. split.
  - intros f fs Hfs. rewrite Hpub in Hfs. by injection Hfs as ->.
  - intros items Hac Hnone. rewrite Hpub. f_equal.
    destruct (planes_Normal_inv _ _ Hok) as (items' & Hac' & _ & ->).
    rewrite Hac in Hac'. injection Hac' as <-.
    by rewrite (filter_none_pass _ Hnone).
Qed.

(** Three points were published; the next response has only records that
    fail the filter: the source then holds no point at all. *)
Lemma cycle_replaces_collection_witness :
  published sample_component
  = Some (point_of <$> [ VObj [("flight", VStr "A")]; VObj [("flight", VStr "B")];
                         VObj [("flight", VStr "C")] ])
  ∧ ∃ c', fetchPlanes None
            (Normal (VObj [("ac", VArr [VObj [("lat", VNum 0%float)]])])) sample_component
          = Normal c'
          ∧ published c' = Some [].
Proof.
  split; [reflexivity|].
  assert (planes_source_ready sample_component) as Hready
    by (eexists _, _; repeat split; reflexivity).
  destruct (cycle_replaces_collection None sample_component
              (VObj [("ac", VArr [VObj [("lat", VNum 0%float)]])]) []
              eq_refl Hready) as (c' & Hfetch & Hpub & _).
  exists c'. split; [exact Hfetch | exact Hpub].
Defined.

Lemma unavailable_before_load : source_unavailable (initializeMap constructed).
Proof. right. reflexivity. Qed.

Lemma unavailable_after_destroy (c : MapComponent) : source_unavailable (ngOnDestroy c).
Proof.
  unfold source_unavailable, ngOnDestroy.
  destruct (map c) as [m|] eqn:Hm; simpl; [by left | by rewrite Hm].
Qed.




(** ** The loop *)

Section Loop.

Variable after_remove : option exn.
Variable airportData : list (string * data.Airport).
Variable countries : list data.Country.

Local Abbreviation step := (step after_remove airportData countries).
Local Abbreviation run := (run after_remove airportData countries).

Lemma run_app (evs1 evs2 : list Event) (s s1 : System) :
  run evs1 s = Some s1 → run (evs1 ++ evs2) s = run evs2 s1.
Proof.
  revert s. induction evs1 as [|ev evs1 IH]; intros s; simpl.
  - by intros [= ->].
  - destruct (step ev s) as [s'|]; [apply IH | done].
Qed.

Lemma fetchPlanes_isFetching (http : completion value) (c c' : MapComponent) :
  fetchPlanes after_remove http c = Normal c' → isFetching c' = isFetching c.
Proof.
  unfold fetchPlanes.
  destruct (fetchPlanes_try after_remove http c) as [c1|e] eqn:Htry;
    intros [= <-]; [|done].
  unfold fetchPlanes_try in Htry.
  destruct http as [response|]; [simpl in Htry|done].
  destruct (planes response); [simpl in Htry|done].
  unfold publish in Htry. destruct (map c) as [m|]; [|by injection Htry as <-].
  destruct (mapboxgl.getSource after_remove m "planes") as [[src|]|]; simpl in Htry;
    [|by injection Htry as <- | done].
  destruct (mapboxgl.setData m "planes" src _); simpl in Htry; [|done].
  by injection Htry as <-.
Qed.

(** The response of the request in flight ends the cycle and starts the
    delay of 1000 ms. *)
Lemma step_response (http : completion value) (s : System) :
  loop s = AwaitFetch →
  ∃ c', fetchPlanes after_remove http (component s) = Normal c'
        ∧ step (HttpResponse http) s = Some (delay 1000 (with_component s c')).
Proof.
  intros Hloop. destruct (fetchPlanes_total after_remove http (component s)) as [c' Hc'].
  exists c'. split; [done|]. simpl. by rewrite Hloop, Hc'.
Qed.

Lemma step_timer (ms : Z) (s : System) :
  loop s = AwaitDelay ms → step TimerFired s = Some (while_isFetching s).
Proof. intros Hloop. simpl. by rewrite Hloop. Qed.

End Loop.

(** C1: a cycle whose request is rejected, or whose response makes the
    processing throw, logs the error with [console.error] and ends
    normally; the map, and with it the published points, is as before;
    the loop goes on to its delay and, the flag still set, to the next
    request, whose response is published as usual. *)
Theorem failed_cycle_is_recovered (after_remove : option exn)
    (airportData : list (string * data.Airport)) (countries : list data.Country)
    (s : System) (http : completion value) (e : exn)
    (Hloop : loop s = AwaitFetch)
    (Hfail : cycle_fails http e) :
  ∃ c' s',
    fetchPlanes after_remove http (component s) = Normal c'
    ∧ console c' = console (component s)
                   ++ [("Uçak verileri alınırken hata oluştu:", e)]
    ∧ map c' = map (component s)
    ∧ published c' = published (component s)
    ∧ step after_remove airportData countries (HttpResponse http) s = Some s'
    ∧ component s' = c' ∧ loop s' = AwaitDelay 1000 ∧ uncaught s' = uncaught s
    ∧ (isFetching (component s) = true →
       ∃ s'', step after_remove airportData countries TimerFired s' = Some s''
              ∧ loop s'' = AwaitFetch ∧ requests s'' = S (requests s)
              ∧ ∀ response features,
                  planes response = Normal features →
                  planes_source_ready (component s) →
                  ∃ s3, step after_remove airportData countries
                          (HttpResponse (Normal response)) s'' = Some s3
                        ∧ published (component s3) = Some features).
Proof.
  pose proof (fetchPlanes_fails after_remove http e (component s) Hfail) as Hfetch.
  eexists _, (delay 1000 (with_component s _)).
  split; [exact Hfetch|]. repeat split.
  - simpl. by rewrite Hloop, Hfetch.
  - intros Hflag. eexists. split.
    + simpl. unfold while_isFetching. simpl. rewrite Hflag. reflexivity.
    + repeat split. intros response features Hplanes Hready.
      destruct (fetchPlanes_publishes after_remove response features
                  (console_error "Uçak verileri alınırken hata oluştu:" e (component s))
                  Hplanes) as (c3 & Hc3 & Hpub & _).
      { destruct Hready as (m & old & ? & ? & ?). by exists m, old. }
      eexists. simpl. rewrite Hc3. split; [reflexivity|]. exact Hpub.
Qed.

(** The first response after [ngOnInit] has no [ac] field. *)
Lemma failed_cycle_is_recovered_witness :
  ∃ c' s',
    fetchPlanes None (Normal (VObj [])) (component ngOnInit) = Normal c'
    ∧ console c' = console (component ngOnInit)
                   ++ [("Uçak verileri alınırken hata oluştu:",
                        TypeError "Cannot read properties of undefined or null (reading 'filter')")]
    ∧ map c' = map (component ngOnInit)
    ∧ published c' = published (component ngOnInit)
    ∧ step None [] [] (HttpResponse (Normal (VObj []))) ngOnInit = Some s'
    ∧ component s' = c' ∧ loop s' = AwaitDelay 1000 ∧ uncaught s' = uncaught ngOnInit
    ∧ (isFetching (component ngOnInit) = true →
       ∃ s'', step None [] [] TimerFired s' = Some s''
              ∧ loop s'' = AwaitFetch ∧ requests s'' = S (requests ngOnInit)
              ∧ ∀ response features,
                  planes response = Normal features →
                  planes_source_ready (component ngOnInit) →
                  ∃ s3, step None [] [] (HttpResponse (Normal response)) s'' = Some s3
                        ∧ published (component s3) = Some features).
Proof.
  apply (failed_cycle_is_recovered None [] [] ngOnInit (Normal (VObj []))).
  - reflexivity.
  - right. exists (VObj []). split; reflexivity.
Defined.

(** ** What the events leave untouched *)

Lemma same_flag_trans (c1 c2 c3 : MapComponent) :
  same_flag c1 c2 → same_flag c2 c3 → same_flag c1 c3.
Proof. unfold same_flag. intros [-> ->] [-> ->]. done. Qed.

Section Frame.

Variable after_remove : option exn.
Variable airportData : list (string * data.Airport).
Variable countries : list data.Country.

Local Abbreviation step := (step after_remove airportData countries).
Local Abbreviation run := (run after_remove airportData countries).

Lemma on_map_same_flag (c c' : MapComponent)
    (f : mapboxgl.Map → completion mapboxgl.Map) :
  on_map c f = Normal c' → same_flag c c'.
Proof.
  unfold on_map. destruct (map c) as [m|]; [|by intros [= <-]].
  destruct (f m); simpl; [by intros [= <-] | done].
Qed.

Ltac next_call H :=
  match type of H with
  | (on_map ?c ?f ≫= _) = Normal _ =>
      let c1 := fresh "c" in
      let E := fresh "E" in
      destruct (on_map c f) as [c1|] eqn:E;
      [apply on_map_same_flag in E; cbn [mbind completion_bind] in H
      |discriminate H]
  end.

Lemma onLoad_same_flag (c c' : MapComponent) :
  onLoad airportData countries c = Normal c' → same_flag c c'.
Proof.
  unfold onLoad. intros H.
  do 13 next_call H.
  apply on_map_same_flag in H.
  unfold same_flag in *. simpl in *. intuition congruence.
Qed.

Lemma imageCallback_same_flag (name : string) (error : option exn)
    (image : option mapboxgl.Image) (c c' : MapComponent) :
  imageCallback name error image c = Normal c' → same_flag c c'.
Proof.
  unfold imageCallback. destruct error; [done|].
  destruct (map c) as [m|], image as [img|]; by intros [= <-].
Qed.

(** Only [Destroy] changes the flag, and only [Destroy] marks the
    component destroyed. *)
Lemma step_keeps_flag (ev : Event) (s s' : System) :
  step ev s = Some s' → ev ≠ Destroy →
  isFetching (component s') = isFetching (component s)
  ∧ destroyed s' = destroyed s.
Proof.
  destruct ev as [|url error image|http| |]; simpl; intros H Hev; [| | | |done].
  - destruct (loaded s || destroyed s); [done|].
    destruct (onLoad _ _ _) as [c|e] eqn:Hload; injection H as <-; [|done].
    apply onLoad_same_flag in Hload as [? _]. done.
  - destruct (map (component s)) as [m|]; [|done].
    destruct (requested url (mapboxgl.loading m)) as [name|]; [|done].
    destruct (imageCallback _ _ _ _) as [c|e] eqn:Hcb; injection H as <-; [|done].
    apply imageCallback_same_flag in Hcb as [? _]. done.
  - destruct (loop s); try done.
    destruct (fetchPlanes after_remove http (component s)) as [c|e] eqn:Hf;
      injection H as <-; [|done].
    apply fetchPlanes_isFetching in Hf. done.
  - destruct (loop s); try done. injection H as <-.
    unfold while_isFetching. by destruct (isFetching (component s)) eqn:Hflag.
Qed.

Lemma step_destroy (s s' : System) :
  step Destroy s = Some s' →
  destroyed s = false ∧ destroyed s' = true
  ∧ isFetching (component s') = false
  ∧ loop s' = loop s ∧ requests s' = requests s ∧ timeouts s' = timeouts s.
Proof.
  simpl. destruct (destroyed s); [done|]. intros [= <-].
  unfold ngOnDestroy. by destruct (map (component s)).
Qed.

(** The loop ends nowhere but at the test of the flag, with the flag
    cleared. *)
Lemma step_finishes (ev : Event) (s s' : System) :
  step ev s = Some s' → loop s' = Finished →
  loop s = Finished ∨ isFetching (component s') = false.
Proof.
  destruct ev as [|url error image|http| |]; simpl; intros H Hfin.
  - destruct (loaded s || destroyed s); [done|].
    destruct (onLoad _ _ _); injection H as <-; by left.
  - destruct (map (component s)) as [m|]; [|done].
    destruct (requested url (mapboxgl.loading m)) as [name|]; [|done].
    destruct (imageCallback _ _ _ _); injection H as <-; by left.
  - destruct (loop s); try done.
    destruct (fetchPlanes_total after_remove http (component s)) as [c Hc].
    rewrite Hc in H. by injection H as <-.
  - destruct (loop s); try done. injection H as <-.
    unfold while_isFetching in *.
    destruct (isFetching (component s)) eqn:Hflag; [done|by right].
  - destruct (destroyed s); [done|]. injection H as <-. by left.
Qed.

Lemma run_snoc (evs : list Event) (ev : Event) (s0 s : System) :
  run (evs ++ [ev]) s0 = Some s →
  ∃ s1, run evs s0 = Some s1 ∧ step ev s1 = Some s.
Proof.
  revert s0. induction evs as [|ev' evs IH]; intros s0; simpl.
  - destruct (step ev s0) as [s1|] eqn:Hs; [|done]. intros [= <-]. by exists s0.
  - destruct (step ev' s0) as [s1|]; [apply IH | done].
Qed.

(** Along every run from [ngOnInit]: the flag is set until the
    component is destroyed, the loop has not ended while the flag is
    set, and a destroyed component has seen [Destroy]. *)
Lemma run_invariant (evs : list Event) (s : System) :
  run evs ngOnInit = Some s →
  (destroyed s = false → isFetching (component s) = true)
  ∧ (loop s = Finished → isFetching (component s) = false)
  ∧ (destroyed s = true → Destroy ∈ evs).
Proof.
  revert s. induction evs as [|ev evs IH] using rev_ind; intros s Hrun.
  - injection Hrun as <-. repeat split; done.
  - apply run_snoc in Hrun as (s1 & Hrun & Hstep).
    destruct (IH s1 Hrun) as (Hflag & Hfin & Hdes).
    assert (ev = Destroy ∨ ev ≠ Destroy) as [->|Hev]
      by (destruct ev; (by left) || (by right)).
    + destruct (step_destroy _ _ Hstep) as (_ & Hd & Hf & _).
      repeat split; [congruence | done |].
      intros _. apply elem_of_app. right. by apply list_elem_of_singleton.
    + destruct (step_keeps_flag _ _ _ Hstep Hev) as [Hf Hd].
      split; [|split].
      * rewrite Hd, Hf. done.
      * intros Hl. destruct (step_finishes _ _ _ Hstep Hl) as [Hl1|]; [|done].
        rewrite Hf. by apply Hfin.
      * rewrite Hd. intros Hd1. apply elem_of_app. left. by apply Hdes.
Qed.

End Frame.

(** ** The loop runs until teardown (C5) *)

Section Unbounded.

Variable after_remove : option exn.
Variable airportData : list (string * data.Airport).
Variable countries : list data.Country.

Lemma run_cycles (https : list (completion value)) (s : System) :
  loop s = AwaitFetch → isFetching (component s) = true →
  ∃ s', run after_remove airportData countries (cycles https) s = Some s'
        ∧ loop s' = AwaitFetch
        ∧ isFetching (component s') = true
        ∧ requests s' = requests s + length https
        ∧ timeouts s' = timeouts s ++ replicate (length https) 1000%Z.
Proof.
  revert s. induction https as [|http https IH]; intros s Hloop Hflag.
  - exists s. simpl. rewrite Nat.add_0_r, app_nil_r. done.
  - destruct (step_response after_remove airportData countries http s Hloop)
      as (c' & Hc' & Hstep).
    pose proof (fetchPlanes_isFetching after_remove _ _ _ Hc') as Hflag'.
    destruct (IH (http_get (delay 1000 (with_component s c')))) as (s' & Hrun & ? & ? & Hreq & Htim).
    { done. } { simpl. congruence. }
    exists s'. split.
    + change (cycles (http :: https))
        with (HttpResponse http :: TimerFired :: cycles https).
      cbn [run]. rewrite Hstep.
      rewrite (step_timer after_remove airportData countries 1000); [|done].
      unfold while_isFetching. cbn [component delay with_component].
      rewrite Hflag', Hflag. exact Hrun.
    + repeat split; try done.
      * rewrite Hreq. simpl. lia.
      * rewrite Htim. simpl. by rewrite <- app_assoc.
Qed.

End Unbounded.

(** C5: each response of the request in flight is followed by a delay of
    1000 ms, after which the flag is tested and, when set, the next
    request leaves; any number of cycles can follow one another; the loop
    has ended only if [ngOnDestroy] ran, which alone clears the flag;
    [ngOnDestroy] during a request leaves the cycle in flight to complete
    with its delay, and the test that follows ends the loop without a new
    request. *)
Theorem loop_runs_until_teardown (after_remove : option exn)
    (airportData : list (string * data.Airport)) (countries : list data.Country) :
  (∀ s http, loop s = AwaitFetch →
     ∃ s1, step after_remove airportData countries (HttpResponse http) s = Some s1
           ∧ loop s1 = AwaitDelay 1000
           ∧ timeouts s1 = timeouts s ++ [1000%Z]
           ∧ requests s1 = requests s
           ∧ step after_remove airportData countries TimerFired s1
             = Some (if isFetching (component s) then http_get s1 else with_loop s1 Finished))
  ∧ (∀ https, ∃ s, run after_remove airportData countries (cycles https) ngOnInit = Some s
                   ∧ loop s = AwaitFetch
                   ∧ requests s = S (length https)
                   ∧ timeouts s = replicate (length https) 1000%Z)
  ∧ (∀ evs s, run after_remove airportData countries evs ngOnInit = Some s →
              (loop s = Finished → Destroy ∈ evs)
              ∧ (isFetching (component s) = false → Destroy ∈ evs))
  ∧ (∀ s, loop s = AwaitFetch → destroyed s = false →
       ∃ s1, step after_remove airportData countries Destroy s = Some s1
             ∧ loop s1 = AwaitFetch
             ∧ isFetching (component s1) = false
             ∧ ∀ http, ∃ s2 s3,
                 step after_remove airportData countries (HttpResponse http) s1 = Some s2
                 ∧ loop s2 = AwaitDelay 1000
                 ∧ step after_remove airportData countries TimerFired s2 = Some s3
                 ∧ loop s3 = Finished
                 ∧ requests s3 = requests s).
Proof.
  split; [|split; [|split]].
  - intros s http Hloop.
    destruct (step_response after_remove airportData countries http s Hloop)
      as (c' & Hc' & Hstep).
    eexists. split; [exact Hstep|]. repeat split.
    simpl. unfold while_isFetching. simpl.
    by rewrite (fetchPlanes_isFetching after_remove _ _ _ Hc').
  - intros https.
    destruct (run_cycles after_remove airportData countries https ngOnInit)
      as (s & Hrun & Hloop & _ & Hreq & Htim); [done..|].
    exists s. repeat split; done.
  - intros evs s Hrun.
    destruct (run_invariant after_remove airportData countries evs s Hrun)
      as (Hflag & Hfin & Hdes).
    assert (isFetching (component s) = false → Destroy ∈ evs) as Hcleared.
    { intros Hf. apply Hdes. destruct (destroyed s); [done|].
      rewrite Hflag in Hf; done. }
    split; [|done]. intros Hl. apply Hcleared. by apply Hfin.
  - intros s Hloop Hlive.
    eexists. split; [simpl; rewrite Hlive; reflexivity|].
    split; [done|]. split.
    { simpl. unfold ngOnDestroy. by destruct (map (component s)). }
    intros http.
    set (s1 := with_destroyed (with_component s (ngOnDestroy (component s)))).
    destruct (step_response after_remove airportData countries http s1 Hloop)
      as (c' & Hc' & Hstep).
    eexists _, _. split; [exact Hstep|]. split; [done|].
    assert (isFetching c' = false) as Hflag.
    { rewrite (fetchPlanes_isFetching after_remove _ _ _ Hc').
      simpl. unfold ngOnDestroy. by destruct (map (component s)). }
    split.
    + simpl. unfold while_isFetching. simpl. rewrite Hflag. reflexivity.
    + done.
Qed.

(** Two cycles, the second with a rejected request, and a third request
    under way. *)
Lemma loop_runs_until_teardown_witness :
  ∃ s, run None [] [] (cycles [Normal sample_response; Throw (HttpErrorResponse 503)])
         ngOnInit = Some s
       ∧ loop s = AwaitFetch
       ∧ requests s = 3
       ∧ timeouts s = [1000%Z; 1000%Z].
Proof.
  exact (proj1 (proj2 (loop_runs_until_teardown None [] []))
           [Normal sample_response; Throw (HttpErrorResponse 503)]).
Defined.

(** ** The fill colour of a country (C6) *)

Lemma highlighted_iff (country : data.Country) :
  highlighted country = true ↔ data.alpha3 country ∈ highlight_set.
Proof.
  unfold highlighted, highlight_set.
  rewrite !orb_true_iff, !String.eqb_eq, !elem_of_cons, elem_of_nil. tauto.
Qed.

Lemma pushes_branches (l : list data.Country) (start : list value) :
  fold_left (λ expression country,
               let color := "rgba(254,197,11,0.8)" in
               expression ++ [VStr (data.alpha3 country); VStr color]) l start
    ++ [VStr "rgba(0, 0, 0, 0)"]
  = start ++ branches_of (data.alpha3 <$> l).
Proof.
  revert start. induction l as [|country l IH]; intros start; [done|].
  simpl. rewrite IH, <- app_assoc. done.
Qed.

Lemma matchExpression_branches (countries : list data.Country) :
  matchExpression countries
  = VArr (VStr "match" :: VArr [VStr "get"; VStr "iso_3166_1_alpha_3"]
          :: branches_of (data.alpha3 <$> List.filter highlighted countries)).
Proof. unfold matchExpression. cbv zeta. by rewrite pushes_branches. Qed.

Lemma branch_labels_branches_of (codes : list string) :
  mapboxgl.branch_labels (branches_of codes) = Some codes.
Proof.
  induction codes as [|code codes IH]; [done|].
  cbn [branches_of mapboxgl.branch_labels]. by rewrite IH.
Qed.

Lemma length_branches_of (codes : list string) :
  length (branches_of codes) = S (2 * length codes).
Proof. induction codes as [|code codes IH]; simpl; [done|]. rewrite IH. lia. Qed.

Lemma match_branches_of (code : string) (codes : list string) :
  mapboxgl.match_branches (VStr code) (branches_of codes)
  = Some (VStr (if bool_decide (code ∈ codes) then highlight_color else transparent)).
Proof.
  induction codes as [|label codes IH]; [done|].
  cbn [branches_of mapboxgl.match_branches strict_eq].
  destruct (String.eqb_spec code label) as [->|Hne].
  - rewrite bool_decide_eq_true_2; [done|]. by left.
  - rewrite IH. do 2 f_equal.
    destruct (decide (code ∈ codes)) as [Hin|Hnin].
    + rewrite !bool_decide_eq_true_2; [done| |done]. by right.
    + rewrite !bool_decide_eq_false_2; [done| |done].
      rewrite elem_of_cons. tauto.
Qed.

Lemma NoDup_filter_bool {A : Type} (f : A → bool) (l : list A) :
  NoDup l → NoDup (List.filter f l).
Proof. intros H. eapply sublist_NoDup; [exact H|]. apply sublist_filter_bool. Qed.

Lemma fmap_filter_alpha3 (countries : list data.Country) :
  data.alpha3 <$> List.filter highlighted countries
  = List.filter (λ code, bool_decide (code ∈ highlight_set)) (data.alpha3 <$> countries).
Proof.
  induction countries as [|country countries IH]; [done|].
  rewrite fmap_cons. cbn [List.filter].
  destruct (highlighted country) eqn:Hh.
  - rewrite bool_decide_eq_true_2 by (by apply highlighted_iff).
    rewrite fmap_cons. by rewrite IH.
  - rewrite bool_decide_eq_false_2; [exact IH|].
    intros Hin. apply highlighted_iff in Hin. congruence.
Qed.

(** C6: with a countries table that lists every code once and contains
    the four highlighted countries, the fill colour of a feature with
    country code [code] is the highlight colour when [code] is TUR, TKM,
    RUS or POL, and the transparent colour for any other code. *)
Theorem fill_color_by_country (countries : list data.Country)
    (code : string) (props : gmap string value)
    (Hunique : NoDup (data.alpha3 <$> countries))
    (Hlisted : ∀ c, c ∈ highlight_set → c ∈ data.alpha3 <$> countries)
    (Hcode : props !! "iso_3166_1_alpha_3" = Some (VStr code)) :
  lookup_field "fill-color" (mapboxgl.paint (countriesLayer countries))
  = matchExpression countries
  ∧ mapboxgl.evaluate (matchExpression countries) props
    = Some (VStr (if bool_decide (code ∈ ["TUR"; "TKM"; "RUS"; "POL"])
                  then "rgba(254,197,11,0.8)" else "rgba(0, 0, 0, 0)")).
Proof.
  split; [done|].
  rewrite matchExpression_branches, fmap_filter_alpha3.
  set (codes := List.filter _ _).
  assert (∀ c, c ∈ codes ↔ c ∈ highlight_set) as Hcodes.
  { intros c. unfold codes. rewrite list_elem_of_In, filter_In, <- !list_elem_of_In.
    rewrite bool_decide_eq_true. split; [tauto|]. intros Hc. split; [by apply Hlisted|done]. }
  assert (NoDup codes) as Hnodup by (by apply NoDup_filter_bool).
  assert (2 ≤ length codes) as Hlen.
  { assert ("TUR" ∈ codes) as H1 by (apply Hcodes; by left).
    assert ("TKM" ∈ codes) as H2 by (apply Hcodes; right; by left).
    destruct codes as [|a [|b rest]]; simpl; [by apply elem_of_nil in H1| |lia].
    apply list_elem_of_singleton in H1, H2. congruence. }
  unfold mapboxgl.evaluate.
  replace (String.eqb "match" "match") with true by done.
  rewrite branch_labels_branches_of, length_branches_of.
  rewrite bool_decide_eq_true_2 by lia.
  rewrite bool_decide_eq_true_2 by done.
  replace (Nat.odd (S (2 * length codes))) with true
    by (symmetry; rewrite Nat.odd_succ, Nat.even_mul; done).
  cbn [andb]. unfold mapboxgl.eval_get.
  replace (String.eqb "get" "get") with true by done.
  rewrite Hcode. simpl. rewrite match_branches_of.
  by rewrite (bool_decide_ext _ _ (Hcodes code)).
Qed.

Lemma fill_color_by_country_witness :
  lookup_field "fill-color" (mapboxgl.paint (countriesLayer sample_countries))
  = matchExpression sample_countries
  ∧ mapboxgl.evaluate (matchExpression sample_countries)
      {[ "iso_3166_1_alpha_3" := VStr "TKM" ]}
    = Some (VStr (if bool_decide ("TKM" ∈ ["TUR"; "TKM"; "RUS"; "POL"])
                  then "rgba(254,197,11,0.8)" else "rgba(0, 0, 0, 0)")).
Proof.
  apply (fill_color_by_country sample_countries "TKM").
  - apply (bool_decide_unpack _). vm_compute. exact I.
  - apply Forall_forall. apply (bool_decide_unpack _). vm_compute. exact I.
  - reflexivity.
Defined.

(** ** The style validation of the fill colour *)

Lemma valid_match_branches_of (input : value) (codes : list string) :
  mapboxgl.valid_expression (VArr (VStr "match" :: input :: branches_of codes))
  = bool_decide (codes ≠ [] ∧ NoDup codes).
Proof.
  unfold mapboxgl.valid_expression.
  replace (String.eqb "match" "match") with true by done.
  rewrite branch_labels_branches_of, length_branches_of.
  replace (Nat.odd (S (2 * length codes))) with true
    by (symmetry; rewrite Nat.odd_succ, Nat.even_mul; done).
  rewrite andb_true_r.
  destruct codes as [|code codes].
  - rewrite bool_decide_eq_false_2 by (simpl; lia).
    symmetry. apply bool_decide_eq_false_2. by intros [? _].
  - rewrite bool_decide_eq_true_2 by (simpl; lia). cbn [andb].
    apply bool_decide_ext. split; [done|by intros [_ ?]].
Qed.

Lemma valid_countriesLayer (countries : list data.Country) :
  mapboxgl.valid_layer (countriesLayer countries) = true ↔ table_usable countries.
Proof.
  unfold mapboxgl.valid_layer, countriesLayer, table_usable.
  cbn [mapboxgl.paint mapboxgl.layout forallb snd]. rewrite !andb_true_r.
  rewrite matchExpression_branches, valid_match_branches_of, fmap_filter_alpha3.
  apply bool_decide_eq_true.
Qed.

Lemma setup_layers_usable (countries : list data.Country) :
  table_usable countries →
  setup_layers countries
  = [(airportLayer, None); (planesLayer, None); (routeLayer, None);
     (countriesLayer countries, Some "admin-1-boundary-bg")].
Proof. intros H. apply valid_countriesLayer in H. unfold setup_layers. by rewrite H. Qed.

Lemma setup_layers_unusable (countries : list data.Country) :
  ¬ table_usable countries →
  setup_layers countries
  = [(airportLayer, None); (planesLayer, None); (routeLayer, None)].
Proof.
  intros H. unfold setup_layers.
  destruct (mapboxgl.valid_layer (countriesLayer countries)) eqn:Hv; [|done].
  by apply valid_countriesLayer in Hv.
Qed.

Lemma set_up_initialized (airportData : list (string * data.Airport))
    (countries : list data.Country) (m : mapboxgl.Map) :
  table_usable countries →
  set_up airportData countries m → initialized airportData countries m.
Proof.
  intros Htable (Ha & Hp & Hr & Hc & Hl & Hli).
  rewrite setup_layers_usable in Hl by done. by repeat split.
Qed.

(** ** Map setup: the route (C7) and the icons (C8) *)

Section Setup.

Variable after_remove : option exn.
Variable airportData : list (string * data.Airport).
Variable countries : list data.Country.

Local Abbreviation step := (step after_remove airportData countries).
Local Abbreviation run := (run after_remove airportData countries).

(** On the fresh map the load handler runs to its end. *)
Lemma onLoad_fresh (c : MapComponent) :
  map c = Some fresh_map →
  onLoad airportData countries c
  = Normal {| map := Some (loaded_map airportData countries); popup := true;
              isFetching := isFetching c; console := console c |}.
Proof.
  destruct c as [m p f l]. simpl. intros ->.
  unfold onLoad, on_map, loaded_map, setup_layers. simpl.
  unfold mapboxgl.addSource, mapboxgl.addLayer. simpl.
  reflexivity.
Qed.

Lemma set_up_loaded_map : set_up airportData countries (loaded_map airportData countries).
Proof. repeat split; try reflexivity. by eexists. Qed.

(** A cycle leaves the map as it is, or replaces the data of the
    [planes] source of a map that was not removed. *)
Lemma fetchPlanes_map (http : completion value) (c c' : MapComponent) :
  fetchPlanes after_remove http c = Normal c' →
  map c' = map c
  ∨ ∃ m old data,
      map c = Some m ∧ mapboxgl.removed m = false
      ∧ mapboxgl.sources m !! "planes" = Some (mapboxgl.GeoJSONSource old)
      ∧ map c' = Some (mapboxgl.with_sources m
                         (<["planes" := mapboxgl.GeoJSONSource data]> (mapboxgl.sources m))).
Proof.
  unfold fetchPlanes.
  destruct (fetchPlanes_try after_remove http c) as [c1|e] eqn:Htry;
    intros [= <-]; [|by left].
  unfold fetchPlanes_try in Htry.
  destruct http as [response|]; [simpl in Htry|done].
  destruct (planes response) as [features|]; [simpl in Htry|done].
  unfold publish, mapboxgl.getSource in Htry.
  destruct (map c) as [m|] eqn:Hm; [|injection Htry as <-; by left].
  destruct (mapboxgl.removed m) eqn:Hrem.
  { destruct after_remove; [done|]. simpl in Htry. injection Htry as <-. by left. }
  simpl in Htry.
  destruct (mapboxgl.sources m !! "planes") as [[old|url]|] eqn:Hsrc; simpl in Htry;
    [|done|injection Htry as <-; by left].
  injection Htry as <-. right. by exists m, old, (FeatureCollection features).
Qed.

(** The callback of an image load leaves the map as it is, or sets the
    images of the map, which has a style from then on. *)
Lemma imageCallback_map (name : string) (error : option exn)
    (image : option mapboxgl.Image) (c c' : MapComponent) (m : mapboxgl.Map) :
  map c = Some m →
  imageCallback name error image c = Normal c' →
  map c' = Some m
  ∨ ∃ images, map c' = Some (mapboxgl.with_images (mapboxgl.lazyInitEmptyStyle m) images).
Proof.
  intros Hm. unfold imageCallback. rewrite Hm. destruct error; [done|].
  destruct image as [img|]; [|intros [= <-]; by left].
  unfold mapboxgl.addImage. simpl. intros [= <-]. right. by eexists.
Qed.

Lemma set_up_with_planes (m : mapboxgl.Map) (data : GeoJSON) :
  set_up airportData countries m →
  set_up airportData countries
    (mapboxgl.with_sources m (<["planes" := mapboxgl.GeoJSONSource data]> (mapboxgl.sources m))).
Proof.
  intros (Ha & Hp & Hr & Hc & Hl & Hli). unfold set_up. simpl.
  rewrite lookup_insert_eq, !lookup_insert_ne by done.
  repeat split; try done. by eexists.
Qed.

Lemma step_setup_invariant (ev : Event) (s s' : System) :
  step ev s = Some s' → setup_invariant airportData countries s → setup_invariant airportData countries s'.
Proof.
  intros Hstep (Hpre & Hpost & Hdes).
  destruct ev as [|url error image|http| |]; simpl in Hstep.
  - (* MapLoad *)
    destruct (loaded s) eqn:Hl; [done|]. destruct (destroyed s) eqn:Hd; [done|].
    simpl in Hstep. rewrite (onLoad_fresh _ (Hpre eq_refl eq_refl)) in Hstep.
    injection Hstep as <-. unfold setup_invariant. simpl. rewrite Hd.
    repeat split; try done. intros _ _. eexists. repeat split; try done.
    by eexists.
  - (* ImageLoaded *)
    destruct (map (component s)) as [m|] eqn:Hm; [|done].
    destruct (requested url (mapboxgl.loading m)) as [name|] eqn:Hreq; [|done].
    set (m1 := mapboxgl.with_loading m (settle url (mapboxgl.loading m))) in *.
    assert ((map (component s') = Some m1
             ∨ ∃ images, map (component s')
                         = Some (mapboxgl.with_images (mapboxgl.lazyInitEmptyStyle m1) images))
            ∧ loaded s' = loaded s ∧ destroyed s' = destroyed s)
      as (Hm' & Hl & Hd).
    { destruct (imageCallback _ _ _ _) as [c|e] eqn:Hcb; injection Hstep as <-.
      - split; [|done].
        exact (imageCallback_map name error image _ c m1
                 (eq_refl : map (set_map (component s) (Some m1)) = Some m1) Hcb).
      - split; [by left|done]. }
    unfold setup_invariant. rewrite Hl, Hd. split; [|split].
    + intros Hl0 Hd0. specialize (Hpre Hl0 Hd0).
      injection Hpre as ->. done.
    + intros Hl1 Hd0. destruct (Hpost Hl1 Hd0) as (m0 & Hm0 & Hr0 & Hinit).
      injection Hm0 as <-.
      destruct Hm' as [Hm'|[images Hm']]; rewrite Hm'; eexists; (split; [done|]).
      * done.
      * unfold mapboxgl.lazyInitEmptyStyle. cbn [m1 mapboxgl.with_loading mapboxgl.removed].
        rewrite Hr0. done.
    + intros Hd1. destruct (Hdes Hd1) as (m0 & Hm0 & Hl0 & Hs0).
      injection Hm0 as <-.
      destruct Hm' as [Hm'|[images Hm']]; rewrite Hm'; eexists; (split; [done|]).
      * done.
      * unfold mapboxgl.lazyInitEmptyStyle. cbn [m1 mapboxgl.with_loading mapboxgl.removed].
        by destruct (mapboxgl.removed m).
  - (* HttpResponse *)
    destruct (loop s); try done.
    destruct (fetchPlanes after_remove http (component s)) as [c|e] eqn:Hf;
      [|destruct (fetchPlanes_total after_remove http (component s)); congruence].
    injection Hstep as <-. unfold setup_invariant. simpl.
    destruct (fetchPlanes_map _ _ _ Hf) as [Hsame|(m & old & data & Hm & Hrem & Hsrc & Hm')].
    + rewrite Hsame. done.
    + rewrite Hm'. split; [|split].
      * intros Hl Hd. specialize (Hpre Hl Hd). rewrite Hm in Hpre.
        injection Hpre as ->. done.
      * intros Hl Hd. destruct (Hpost Hl Hd) as (m0 & Hm0 & _ & Hinit).
        rewrite Hm in Hm0. injection Hm0 as <-.
        eexists. split; [done|]. split; [done|]. by apply set_up_with_planes.
      * intros Hd. destruct (Hdes Hd) as (m0 & Hm0 & _ & Hs0).
        rewrite Hm in Hm0. injection Hm0 as <-. by rewrite Hs0 in Hsrc.
  - (* TimerFired *)
    destruct (loop s); try done. injection Hstep as <-.
    unfold while_isFetching. by destruct (isFetching (component s)).
  - (* Destroy *)
    destruct (destroyed s) eqn:Hd; [done|]. injection Hstep as <-.
    unfold setup_invariant. simpl. repeat split; try done. intros _.
    assert (∃ m, map (component s) = Some m) as [m Hm].
    { destruct (loaded s) eqn:Hl.
      - destruct (Hpost eq_refl eq_refl) as (m & ? & _). by exists m.
      - eexists. by apply Hpre. }
    unfold ngOnDestroy. rewrite Hm. simpl. by eexists.
Qed.

Lemma run_setup_invariant (evs : list Event) (s : System) :
  run evs ngOnInit = Some s → setup_invariant airportData countries s.
Proof.
  assert (setup_invariant airportData countries ngOnInit) as Hinit by (repeat split; done).
  revert Hinit. generalize ngOnInit. induction evs as [|ev evs IH]; intros s0 H0; simpl.
  - by intros [= <-].
  - destruct (step ev s0) as [s1|] eqn:Hstep; [|done].
    apply IH. by eapply step_setup_invariant.
Qed.

End Setup.

(** C7: the geometry of the route is the line through (30.8005, 36.9038)
    and (6.7668, 51.2895), in this order; in every state the component
    reaches, a [route] source of the map holds exactly this line, and it
    is there from the load event until the component is destroyed. *)
Theorem route_geometry_fixed (after_remove : option exn)
    (airportData : list (string * data.Airport)) (countries : list data.Country)
    (evs : list Event) (s : System)
    (Hrun : run after_remove airportData countries evs ngOnInit = Some s) :
  geometry route
  = LineString [[VNum 30.8005%float; VNum 36.9038%float];
                [VNum 6.7668%float; VNum 51.2895%float]]
  ∧ (∀ m src, map (component s) = Some m →
              mapboxgl.sources m !! "route" = Some src →
              src = mapboxgl.GeoJSONSource (FeatureData route))
  ∧ (loaded s = true → destroyed s = false →
     ∃ m, map (component s) = Some m
          ∧ mapboxgl.sources m !! "route"
            = Some (mapboxgl.GeoJSONSource (FeatureData route))).
Proof.
  split; [reflexivity|].
  destruct (run_setup_invariant _ _ _ _ _ Hrun) as (Hpre & Hpost & Hdes).
  split.
  - intros m src Hm Hsrc.
    destruct (destroyed s) eqn:Hd.
    + destruct (Hdes eq_refl) as (m0 & Hm0 & _ & Hempty).
      rewrite Hm in Hm0. injection Hm0 as <-. by rewrite Hempty in Hsrc.
    + destruct (loaded s) eqn:Hl.
      * destruct (Hpost eq_refl eq_refl) as (m0 & Hm0 & _ & (_ & _ & Hroute & _)).
        rewrite Hm in Hm0. injection Hm0 as <-. rewrite Hroute in Hsrc.
        by injection Hsrc as <-.
      * rewrite (Hpre eq_refl eq_refl) in Hm. injection Hm as <-. done.
  - intros Hl Hd. destruct (Hpost Hl Hd) as (m & Hm & _ & (_ & _ & Hroute & _)).
    by exists m.
Qed.

Lemma sample_events_run :
  ∃ s, run None [] sample_countries sample_events ngOnInit = Some s.
Proof. eexists. vm_compute. reflexivity. Qed.

Lemma route_geometry_fixed_witness :
  ∃ s, run None [] sample_countries sample_events ngOnInit = Some s
       ∧ geometry route
         = LineString [[VNum 30.8005%float; VNum 36.9038%float];
                       [VNum 6.7668%float; VNum 51.2895%float]]
       ∧ (∀ m src, map (component s) = Some m →
                   mapboxgl.sources m !! "route" = Some src →
                   src = mapboxgl.GeoJSONSource (FeatureData route))
       ∧ (loaded s = true → destroyed s = false →
          ∃ m, map (component s) = Some m
               ∧ mapboxgl.sources m !! "route"
                 = Some (mapboxgl.GeoJSONSource (FeatureData route))).
Proof.
  destruct (run None [] sample_countries sample_events ngOnInit) as [s|] eqn:Hrun.
  - exists s. split; [reflexivity|].
    exact (route_geometry_fixed None [] sample_countries sample_events s Hrun).
  - vm_compute in Hrun. discriminate Hrun.
Defined.

Lemma requested_settle (url other : string) (loading : list (string * string)) :
  other ≠ url → requested other (settle url loading) = requested other loading.
Proof.
  intros Hne. induction loading as [|[u name] rest IH]; [done|]. simpl.
  destruct (String.eqb_spec u url) as [->|Hu].
  - destruct (String.eqb_spec url other) as [->|_]; done.
  - simpl. by rewrite IH.
Qed.

(** C8, as the code has it: when the load of an icon fails, the callback
    throws the error and nothing catches or logs it; the icon is not
    registered; the sources, layers, listeners and images of the map stay
    as they are, and, the countries table giving the fill colour a branch
    and no label twice, the setup the load handler made is complete, since
    the handler had returned before the callback ran.  Only the failed
    request leaves the requests in flight: the load of the other icon is
    still pending, and when it succeeds that icon is registered and nothing
    more is thrown. *)
Theorem icon_failure_is_uncaught (after_remove : option exn)
    (airportData : list (string * data.Airport)) (countries : list data.Country)
    (evs : list Event) (s : System) (m : mapboxgl.Map)
    (url name : string) (e : exn) (image : option mapboxgl.Image)
    (Htable : table_usable countries)
    (Hrun : run after_remove airportData countries evs ngOnInit = Some s)
    (Hmap : map (component s) = Some m)
    (Hreq : requested url (mapboxgl.loading m) = Some name) :
  ∃ s' m',
    step after_remove airportData countries (ImageLoaded url (Some e) image) s = Some s'
    ∧ uncaught s' = uncaught s ++ [e]
    ∧ console (component s') = console (component s)
    ∧ loop s' = loop s
    ∧ map (component s') = Some m'
    ∧ mapboxgl.images m' = mapboxgl.images m
    ∧ mapboxgl.sources m' = mapboxgl.sources m
    ∧ mapboxgl.layers m' = mapboxgl.layers m
    ∧ mapboxgl.listeners m' = mapboxgl.listeners m
    ∧ (destroyed s = false → initialized airportData countries m')
    ∧ mapboxgl.loading m' = settle url (mapboxgl.loading m)
    ∧ (∀ other, other ≠ url →
         requested other (mapboxgl.loading m') = requested other (mapboxgl.loading m))
    ∧ (∀ other icon img,
         other ≠ url → requested other (mapboxgl.loading m) = Some icon →
         mapboxgl.images m !! icon = None →
         ∃ s'' m'',
           step after_remove airportData countries (ImageLoaded other None (Some img)) s'
           = Some s''
           ∧ uncaught s'' = uncaught s'
           ∧ map (component s'') = Some m''
           ∧ mapboxgl.images m'' !! icon = Some img).
Proof.
  eexists _, _. split; [simpl; rewrite Hmap, Hreq; reflexivity|].
  do 8 (split; [reflexivity|]). split; [|split; [reflexivity|split]].
  - intros Hd.
    destruct (run_setup_invariant _ _ _ _ _ Hrun) as (Hpre & Hpost & _).
    destruct (loaded s) eqn:Hl.
    + destruct (Hpost eq_refl Hd) as (m0 & Hm0 & _ & Hinit).
      rewrite Hmap in Hm0. injection Hm0 as <-.
      by apply (set_up_initialized airportData countries m Htable).
    + rewrite (Hpre eq_refl Hd) in Hmap. injection Hmap as <-. done.
  - intros other Hne. by apply requested_settle.
  - intros other icon img Hne Hother Hfree.
    eexists _, _. split.
    { cbn [step throw_uncaught with_component component map set_map mapboxgl.loading
           mapboxgl.with_loading].
      rewrite (requested_settle url other _ Hne), Hother. reflexivity. }
    split; [reflexivity|]. split; [reflexivity|].
    unfold mapboxgl.lazyInitEmptyStyle. simpl.
    destruct (mapboxgl.removed m); simpl.
    + by rewrite lookup_empty, lookup_insert_eq.
    + by rewrite Hfree, lookup_insert_eq.
Qed.

Lemma icon_failure_is_uncaught_witness :
  ∃ s' m',
    step None [] sample_countries
      (ImageLoaded "../../assets/img/plane.png" (Some (Error "404")) None)
      sample_loaded
    = Some s'
    ∧ uncaught s' = uncaught sample_loaded ++ [Error "404"]
    ∧ console (component s') = console (component sample_loaded)
    ∧ loop s' = loop sample_loaded
    ∧ map (component s') = Some m'
    ∧ mapboxgl.images m' = mapboxgl.images (loaded_map [] sample_countries)
    ∧ mapboxgl.sources m' = mapboxgl.sources (loaded_map [] sample_countries)
    ∧ mapboxgl.layers m' = mapboxgl.layers (loaded_map [] sample_countries)
    ∧ mapboxgl.listeners m' = mapboxgl.listeners (loaded_map [] sample_countries)
    ∧ (destroyed sample_loaded = false → initialized [] sample_countries m')
    ∧ mapboxgl.loading m'
      = settle "../../assets/img/plane.png" (mapboxgl.loading (loaded_map [] sample_countries))
    ∧ (∀ other, other ≠ "../../assets/img/plane.png" →
         requested other (mapboxgl.loading m')
         = requested other (mapboxgl.loading (loaded_map [] sample_countries)))
    ∧ (∀ other icon img,
         other ≠ "../../assets/img/plane.png" →
         requested other (mapboxgl.loading (loaded_map [] sample_countries)) = Some icon →
         mapboxgl.images (loaded_map [] sample_countries) !! icon = None →
         ∃ s'' m'',
           step None [] sample_countries (ImageLoaded other None (Some img)) s' = Some s''
           ∧ uncaught s'' = uncaught s'
           ∧ map (component s'') = Some m''
           ∧ mapboxgl.images m'' !! icon = Some img).
Proof.
  apply (icon_failure_is_uncaught None [] sample_countries [MapLoad] sample_loaded
           (loaded_map [] sample_countries) "../../assets/img/plane.png" "plane-icon"
           (Error "404") None).
  - split; [done|]. apply (bool_decide_unpack _). vm_compute. exact I.
  - reflexivity.
  - reflexivity.
  - reflexivity.
Defined.

(** The load of the airport icon fails: the error is uncaught, and yet
    the map has all its sources, layers and listeners, and the plane icon
    is registered when its own load succeeds afterwards. *)
Lemma icon_failure_does_not_abort_setup :
  ∃ s m,
    run None [] sample_countries
      [ MapLoad;
        ImageLoaded "../../assets/img/airport.png" (Some (Error "404")) None;
        ImageLoaded "../../assets/img/plane.png" None
          (Some {| mapboxgl.url := "../../assets/img/plane.png" |}) ]
      ngOnInit = Some s
    ∧ uncaught s = [Error "404"]
    ∧ map (component s) = Some m
    ∧ initialized [] sample_countries m
    ∧ mapboxgl.images m !! "airport-icon" = None
    ∧ mapboxgl.images m !! "plane-icon"
      = Some {| mapboxgl.url := "../../assets/img/plane.png" |}.
Proof.
  eexists _, _. split; [vm_compute; reflexivity|].
  split; [reflexivity|]. split; [reflexivity|].
  split; [|split; reflexivity].
  repeat split; try reflexivity. eexists. reflexivity.
Qed.

(** ** Further properties: the refresh cycle *)

(** What a cycle can do to the component: nothing, one more line on the
    console, or new data in the [planes] source of a map that is there. *)
Lemma fetchPlanes_cases (after_remove : option exn) (http : completion value)
    (c c' : MapComponent) :
  fetchPlanes after_remove http c = Normal c' →
  c' = c
  ∨ (∃ e, c' = console_error "Uçak verileri alınırken hata oluştu:" e c)
  ∨ ∃ m old data,
      map c = Some m ∧ mapboxgl.removed m = false
      ∧ mapboxgl.sources m !! "planes" = Some (mapboxgl.GeoJSONSource old)
      ∧ c' = set_map c (Some (mapboxgl.with_sources m
                (<["planes" := mapboxgl.GeoJSONSource data]> (mapboxgl.sources m)))).
Proof.
  unfold fetchPlanes.
  destruct (fetchPlanes_try after_remove http c) as [c1|e] eqn:Htry;
    intros [= <-]; [|right; left; by exists e].
  unfold fetchPlanes_try in Htry.
  destruct http as [response|]; [simpl in Htry|done].
  destruct (planes response) as [features|]; [simpl in Htry|done].
  unfold publish, mapboxgl.getSource in Htry.
  destruct (map c) as [m|] eqn:Hm; [|injection Htry as <-; by left].
  destruct (mapboxgl.removed m) eqn:Hrem.
  { destruct after_remove; [done|]. simpl in Htry. injection Htry as <-. by left. }
  simpl in Htry.
  destruct (mapboxgl.sources m !! "planes") as [[old|url]|] eqn:Hsrc; simpl in Htry;
    [|done|injection Htry as <-; by left].
  injection Htry as <-. right. right. by exists m, old, (FeatureCollection features).
Qed.

(** X1: whatever the request returned, a cycle ends without throwing and
    changes nothing of the component but, at most, the data of the
    [planes] source and one more line on the console: the flag, the popup,
    every other source, the set of source names, the layers, images,
    listeners and pending image loads are as before. *)
Theorem refresher_writes_only_planes (after_remove : option exn)
    (http : completion value) (c : MapComponent) :
  ∃ c', fetchPlanes after_remove http c = Normal c'
        ∧ popup c' = popup c
        ∧ isFetching c' = isFetching c
        ∧ (console c' = console c
           ∨ ∃ e, console c' = console c ++ [("Uçak verileri alınırken hata oluştu:", e)])
        ∧ (map c = None → map c' = None)
        ∧ (∀ m, map c = Some m →
             ∃ m', map c' = Some m'
                   ∧ (∀ id, id ≠ "planes" →
                        mapboxgl.sources m' !! id = mapboxgl.sources m !! id)
                   ∧ dom (mapboxgl.sources m') = dom (mapboxgl.sources m)
                   ∧ mapboxgl.layers m' = mapboxgl.layers m
                   ∧ mapboxgl.images m' = mapboxgl.images m
                   ∧ mapboxgl.listeners m' = mapboxgl.listeners m
                   ∧ mapboxgl.loading m' = mapboxgl.loading m
                   ∧ mapboxgl.removed m' = mapboxgl.removed m).
Proof.
  destruct (fetchPlanes_total after_remove http c) as [c' Hc']. exists c'.
  split; [done|].
  destruct (fetchPlanes_cases _ _ _ _ Hc')
    as [->|[[e ->]|(m & old & data & Hm & Hrem & Hsrc & ->)]].
  - do 3 (split; [done || by left|]). split; [done|].
    intros m Hm. exists m. by repeat split.
  - do 2 (split; [done|]). split; [right; by exists e|]. split; [done|].
    intros m Hm. exists m. by repeat split.
  - do 2 (split; [done|]). split; [by left|]. split; [simpl; congruence|].
    intros m0 Hm0. rewrite Hm in Hm0. injection Hm0 as <-.
    eexists. split; [reflexivity|]. simpl. split.
    { intros id Hid. by rewrite lookup_insert_ne. }
    split; [|done]. apply dom_insert_lookup_L. by eexists.
Qed.

(** X2: publishing is idempotent: a second cycle with the same response
    leaves the component exactly as the first one left it. *)
Theorem republishing_is_idempotent (after_remove : option exn) (c : MapComponent)
    (response : value) (features : list Feature)
    (Hok : planes response = Normal features)
    (Hready : planes_source_ready c) :
  ∃ c', fetchPlanes after_remove (Normal response) c = Normal c'
        ∧ fetchPlanes after_remove (Normal response) c' = Normal c'.
Proof.
  destruct Hready as (m & old & Hm & Hlive & Hsrc).
  eexists. split.
  - unfold fetchPlanes, fetchPlanes_try. simpl. rewrite Hok. simpl.
    unfold publish, mapboxgl.getSource. rewrite Hm, Hlive, Hsrc.
    reflexivity.
  - unfold fetchPlanes, fetchPlanes_try. simpl. rewrite Hok. simpl.
    unfold publish, mapboxgl.getSource. simpl.
    rewrite Hlive, lookup_insert_eq. simpl.
    unfold set_map, mapboxgl.with_sources. simpl. by rewrite insert_insert_eq.
Qed.

Lemma republishing_is_idempotent_witness :
  ∃ c', fetchPlanes None (Normal sample_response) sample_component = Normal c'
        ∧ fetchPlanes None (Normal sample_response) c' = Normal c'.
Proof.
  apply (republishing_is_idempotent None sample_component sample_response
           (point_of <$> List.filter passes sample_records)).
  - reflexivity.
  - eexists _, _. repeat split; reflexivity.
Defined.

Lemma filterM_keep_unreadable (items : list value) (plane : value) :
  plane ∈ items → readable plane = false → ∃ e, filterM keep items = Throw e.
Proof.
  intros Hin Hbad. induction Hin as [plane items|plane other items _ IH].
  - destruct (keep_unreadable _ Hbad) as [e He]. exists e. simpl. by rewrite He.
  - destruct (IH Hbad) as [e He]. simpl. rewrite He.
    destruct (keep other) as [b|e']; simpl; eauto.
Qed.

(** X3: one entry of the collection that is [null] (or otherwise has no
    properties to read) makes the whole cycle fail: no record of that
    response is published, not even the well-formed ones; the error is
    logged and the map keeps what it had. *)
Theorem unreadable_entry_fails_cycle (after_remove : option exn) (c : MapComponent)
    (response : value) (items : list value) (plane : value)
    (Hac : get response "ac" = Normal (VArr items))
    (Hin : plane ∈ items)
    (Hbad : readable plane = false) :
  ∃ e, planes response = Throw e
       ∧ fetchPlanes after_remove (Normal response) c
         = Normal (console_error "Uçak verileri alınırken hata oluştu:" e c)
       ∧ published (console_error "Uçak verileri alınırken hata oluştu:" e c)
         = published c.
Proof.
  destruct (filterM_keep_unreadable items plane Hin Hbad) as [e He].
  assert (planes response = Throw e) as Hplanes.
  { unfold planes. rewrite Hac. simpl. by rewrite He. }
  exists e. split; [done|]. split; [|done].
  apply fetchPlanes_fails. right. by exists response.
Qed.

Lemma unreadable_entry_fails_cycle_witness :
  ∃ e, planes (VObj [("ac", VArr (sample_records ++ [VNull]))]) = Throw e
       ∧ fetchPlanes None (Normal (VObj [("ac", VArr (sample_records ++ [VNull]))]))
           sample_component
         = Normal (console_error "Uçak verileri alınırken hata oluştu:" e sample_component)
       ∧ published (console_error "Uçak verileri alınırken hata oluştu:" e sample_component)
         = published sample_component.
Proof.
  apply (unreadable_entry_fails_cycle None sample_component _
           (sample_records ++ [VNull]) VNull).
  - reflexivity.
  - apply elem_of_app. right. apply list_elem_of_singleton. reflexivity.
  - reflexivity.
Defined.

(** ** Further properties: the loop *)

Section LoopAccounting.

Variable after_remove : option exn.
Variable airportData : list (string * data.Airport).
Variable countries : list data.Country.

Lemma step_in_step (ev : Event) (s s' : System) :
  step after_remove airportData countries ev s = Some s' → in_step s → in_step s'.
Proof.
  unfold in_step. intros Hstep [Hall Hloop].
  destruct ev as [|url error image|http| |]; simpl in Hstep.
  - destruct (loaded s || destroyed s); [done|].
    destruct (onLoad _ _ _); by injection Hstep as <-.
  - destruct (map (component s)) as [m|]; [|done].
    destruct (requested url (mapboxgl.loading m)); [|done].
    destruct (imageCallback _ _ _ _); by injection Hstep as <-.
  - destruct (loop s) eqn:Hl; try done.
    destruct (fetchPlanes_total after_remove http (component s)) as [c Hc].
    rewrite Hc in Hstep. injection Hstep as <-. simpl. split.
    + apply Forall_app. split; [done|]. by repeat constructor.
    + split; [done|]. rewrite length_app. simpl. lia.
  - destruct (loop s) eqn:Hl; try done. injection Hstep as <-.
    unfold while_isFetching. destruct Hloop as [_ Hreq].
    destruct (isFetching (component s)); simpl; split; try done. lia.
  - destruct (destroyed s); [done|]. by injection Hstep as <-.
Qed.

Lemma step_after_teardown (ev : Event) (s s' : System) :
  step after_remove airportData countries ev s = Some s' →
  isFetching (component s) = false →
  isFetching (component s') = false
  ∧ requests s' = requests s
  ∧ length (timeouts s') + delays_left (loop s')
    ≤ length (timeouts s) + delays_left (loop s)
  ∧ (loop s = Finished → loop s' = Finished)
  ∧ (ev = TimerFired → loop s' = Finished).
Proof.
  intros Hstep Hflag.
  assert (isFetching (component s') = false) as Hflag'.
  { assert (ev = Destroy ∨ ev ≠ Destroy) as [->|Hev]
      by (destruct ev; (by left) || (by right)).
    - by destruct (step_destroy _ _ _ _ _ Hstep) as (_ & _ & ? & _).
    - destruct (step_keeps_flag _ _ _ _ _ _ Hstep Hev) as [-> _]. done. }
  split; [done|].
  destruct ev as [|url error image|http| |]; simpl in Hstep.
  - destruct (loaded s || destroyed s); [done|].
    destruct (onLoad _ _ _); by injection Hstep as <-.
  - destruct (map (component s)) as [m|]; [|done].
    destruct (requested url (mapboxgl.loading m)); [|done].
    destruct (imageCallback _ _ _ _); by injection Hstep as <-.
  - destruct (loop s) eqn:Hl; try done.
    destruct (fetchPlanes_total after_remove http (component s)) as [c Hc].
    rewrite Hc in Hstep. injection Hstep as <-. simpl.
    rewrite length_app. simpl. repeat split; (done || lia).
  - destruct (loop s) eqn:Hl; try done. injection Hstep as <-.
    unfold while_isFetching. rewrite Hflag. simpl. repeat split; (done || lia).
  - destruct (destroyed s); [done|]. by injection Hstep as <-.
Qed.

(** An ended loop is not started again. *)
Lemma run_stays_finished (evs : list Event) (s s' : System) :
  run after_remove airportData countries evs s = Some s' →
  isFetching (component s) = false → loop s = Finished → loop s' = Finished.
Proof.
  revert s. induction evs as [|ev evs IH]; intros s Hrun Hflag Hfin; simpl in Hrun.
  - by injection Hrun as <-.
  - destruct (step after_remove airportData countries ev s) as [s1|] eqn:Hstep; [|done].
    destruct (step_after_teardown _ _ _ Hstep Hflag) as (Hf1 & _ & _ & Hfin1 & _).
    eapply IH; eauto.
Qed.

Lemma run_after_teardown (evs : list Event) (s s' : System) :
  run after_remove airportData countries evs s = Some s' →
  isFetching (component s) = false →
  isFetching (component s') = false
  ∧ requests s' = requests s
  ∧ length (timeouts s') + delays_left (loop s')
    ≤ length (timeouts s) + delays_left (loop s)
  ∧ (TimerFired ∈ evs → loop s' = Finished).
Proof.
  revert s. induction evs as [|ev evs IH]; intros s Hrun Hflag; simpl in Hrun.
  - injection Hrun as <-. repeat split; try done. by intros ?%elem_of_nil.
  - destruct (step after_remove airportData countries ev s) as [s1|] eqn:Hstep; [|done].
    destruct (step_after_teardown _ _ _ Hstep Hflag) as (Hf1 & Hr1 & Hd1 & Hfin1 & Htimer).
    destruct (IH s1 Hrun Hf1) as (Hf & Hr & Hd & Hlater).
    split; [done|]. split; [congruence|]. split; [lia|].
    intros [<-|Hin]%elem_of_cons; [|by apply Hlater].
    eapply run_stays_finished; eauto.
Qed.

(** A run that contains [Destroy] ends with the flag cleared. *)
Lemma run_destroy_clears_flag (evs : list Event) (s : System) :
  run after_remove airportData countries evs ngOnInit = Some s →
  Destroy ∈ evs → isFetching (component s) = false.
Proof.
  revert s. induction evs as [|ev evs IH] using rev_ind; intros s Hrun Hin.
  - by apply elem_of_nil in Hin.
  - apply run_snoc in Hrun as (s1 & Hrun & Hstep).
    assert (ev = Destroy ∨ ev ≠ Destroy) as [->|Hev]
      by (destruct ev; (by left) || (by right)).
    + by destruct (step_destroy _ _ _ _ _ Hstep) as (_ & _ & ? & _).
    + destruct (step_keeps_flag _ _ _ _ _ _ Hstep Hev) as [-> _].
      apply IH; [done|]. apply elem_of_app in Hin as [?|Hlast]; [done|].
      apply list_elem_of_singleton in Hlast. congruence.
Qed.

End LoopAccounting.

(** X4: requests and delays keep in step along every run: every delay
    given to [setTimeout] is 1000 ms, a new request leaves only after the
    previous response and its delay, and so the requests sent are the
    delays started plus the single request in flight, if any. *)
Theorem requests_and_delays_in_step (after_remove : option exn)
    (airportData : list (string * data.Airport)) (countries : list data.Country)
    (evs : list Event) (s : System)
    (Hrun : run after_remove airportData countries evs ngOnInit = Some s) :
  Forall (λ ms, ms = 1000%Z) (timeouts s)
  ∧ match loop s with
    | AwaitFetch => requests s = S (length (timeouts s))
    | AwaitDelay ms => ms = 1000%Z ∧ requests s = length (timeouts s)
    | Finished => requests s = length (timeouts s)
    end.
Proof.
  assert (in_step ngOnInit) as Hinit by (split; [constructor | reflexivity]).
  revert Hinit Hrun. generalize ngOnInit.
  induction evs as [|ev evs IH]; intros s0 H0; simpl.
  - by intros [= <-].
  - destruct (step after_remove airportData countries ev s0) as [s1|] eqn:Hstep; [|done].
    apply IH. by eapply step_in_step.
Qed.

Lemma requests_and_delays_in_step_witness :
  ∃ s, run None [] sample_countries sample_events ngOnInit = Some s
       ∧ Forall (λ ms, ms = 1000%Z) (timeouts s)
       ∧ match loop s with
         | AwaitFetch => requests s = S (length (timeouts s))
         | AwaitDelay ms => ms = 1000%Z ∧ requests s = length (timeouts s)
         | Finished => requests s = length (timeouts s)
         end.
Proof.
  destruct (run None [] sample_countries sample_events ngOnInit) as [s|] eqn:Hrun.
  - exists s. split; [reflexivity|].
    exact (requests_and_delays_in_step None [] sample_countries sample_events s Hrun).
  - vm_compute in Hrun. discriminate Hrun.
Defined.

(** X5: once [ngOnDestroy] has run, whatever events follow, no request
    is sent any more, at most one further delay is started (the one of the
    cycle that was in flight), the flag stays cleared, and the loop has
    ended as soon as a timer has fired. *)
Theorem no_request_after_teardown (after_remove : option exn)
    (airportData : list (string * data.Airport)) (countries : list data.Country)
    (evs later : list Event) (s s' : System)
    (Hrun : run after_remove airportData countries evs ngOnInit = Some s)
    (Hdestroyed : Destroy ∈ evs)
    (Hlater : run after_remove airportData countries later s = Some s') :
  requests s' = requests s
  ∧ length (timeouts s') ≤ S (length (timeouts s))
  ∧ isFetching (component s') = false
  ∧ (TimerFired ∈ later → loop s' = Finished).
Proof.
  pose proof (run_destroy_clears_flag _ _ _ _ _ Hrun Hdestroyed) as Hflag.
  destruct (run_after_teardown _ _ _ _ _ _ Hlater Hflag) as (Hf & Hr & Hd & Ht).
  repeat split; try done.
  destruct (loop s), (loop s'); simpl in Hd; lia.
Qed.

Lemma no_request_after_teardown_witness :
  ∃ s s',
    run None [] sample_countries [MapLoad; Destroy] ngOnInit = Some s
    ∧ run None [] sample_countries
        [HttpResponse (Normal sample_response); TimerFired] s = Some s'
    ∧ requests s' = requests s
    ∧ length (timeouts s') ≤ S (length (timeouts s))
    ∧ isFetching (component s') = false
    ∧ (TimerFired ∈ [HttpResponse (Normal sample_response); TimerFired] →
       loop s' = Finished).
Proof.
  destruct (run None [] sample_countries [MapLoad; Destroy] ngOnInit) as [s|] eqn:Hrun;
    [|vm_compute in Hrun; discriminate Hrun].
  destruct (run None [] sample_countries
              [HttpResponse (Normal sample_response); TimerFired] s) as [s'|] eqn:Hlater.
  - exists s, s'. split; [reflexivity|]. split; [exact Hlater|].
    apply (no_request_after_teardown None [] sample_countries [MapLoad; Destroy]
             [HttpResponse (Normal sample_response); TimerFired] s s' Hrun).
    + apply elem_of_cons. right. apply elem_of_cons. left. reflexivity.
    + exact Hlater.
  - vm_compute in Hrun. injection Hrun as <-. vm_compute in Hlater. discriminate Hlater.
Defined.

(** ** Further properties: uncaught errors and the map's setup *)

Section Provenance.

Variable after_remove : option exn.
Variable airportData : list (string * data.Airport).
Variable countries : list data.Country.

Lemma step_uncaught (ev : Event) (s s' : System) (e : exn) :
  step after_remove airportData countries ev s = Some s' →
  setup_invariant airportData countries s →
  e ∈ uncaught s' →
  e ∈ uncaught s ∨ ∃ url image, ev = ImageLoaded url (Some e) image.
Proof.
  intros Hstep (Hpre & _ & _) Hin.
  destruct ev as [|url error image|http| |]; simpl in Hstep.
  - destruct (loaded s) eqn:Hl; [done|]. destruct (destroyed s) eqn:Hd; [done|].
    simpl in Hstep. rewrite (onLoad_fresh _ _ _ (Hpre eq_refl eq_refl)) in Hstep.
    injection Hstep as <-. by left.
  - destruct (map (component s)) as [m|] eqn:Hm; [|done].
    destruct (requested url (mapboxgl.loading m)) as [name|]; [|done].
    destruct (imageCallback _ _ _ _) as [c|e'] eqn:Hcb; injection Hstep as <-;
      [by left|].
    simpl in Hin. apply elem_of_app in Hin as [?|Hlast]; [by left|].
    apply list_elem_of_singleton in Hlast as ->. right.
    unfold imageCallback in Hcb. destruct error as [err|].
    { injection Hcb as ->. by eexists _, _. }
    simpl in Hcb. by destruct image.
  - destruct (loop s); try done.
    destruct (fetchPlanes_total after_remove http (component s)) as [c Hc].
    rewrite Hc in Hstep. injection Hstep as <-. by left.
  - destruct (loop s); try done. injection Hstep as <-.
    unfold while_isFetching in Hin. destruct (isFetching (component s)); by left.
  - destruct (destroyed s); [done|]. injection Hstep as <-. by left.
Qed.

(** The names of the sources never leave the four the load handler
    adds. *)
Lemma step_sources_dom (ev : Event) (s s' : System) :
  step after_remove airportData countries ev s = Some s' →
  setup_invariant airportData countries s →
  dom (sources_of (component s)) ⊆ setup_sources →
  dom (sources_of (component s')) ⊆ setup_sources.
Proof.
  intros Hstep (Hpre & _ & _) Hdom.
  destruct ev as [|url error image|http| |]; simpl in Hstep.
  - destruct (loaded s) eqn:Hl; [done|]. destruct (destroyed s) eqn:Hd; [done|].
    simpl in Hstep. rewrite (onLoad_fresh _ _ _ (Hpre eq_refl eq_refl)) in Hstep.
    injection Hstep as <-. unfold sources_of, setup_sources. simpl.
    rewrite !dom_insert_L, dom_empty_L, (right_id_L ∅ (∪)).
    intros x. rewrite !elem_of_union, !elem_of_singleton. tauto.
  - unfold sources_of in *.
    destruct (map (component s)) as [m|] eqn:Hm; [|done].
    destruct (requested url (mapboxgl.loading m)) as [name|]; [|done].
    set (m1 := mapboxgl.with_loading m (settle url (mapboxgl.loading m))) in *.
    destruct (imageCallback _ _ _ _) as [c|e] eqn:Hcb; injection Hstep as <-.
    + destruct (imageCallback_map name error image _ c m1
                  (eq_refl : map (set_map (component s) (Some m1)) = Some m1) Hcb)
        as [Hm'|[images Hm']]; simpl; rewrite Hm'; [done|].
      unfold mapboxgl.lazyInitEmptyStyle. simpl.
      destruct (mapboxgl.removed m); [|done].
      simpl. rewrite dom_empty_L. apply empty_subseteq.
    + done.
  - destruct (loop s); try done.
    destruct (fetchPlanes after_remove http (component s)) as [c|e] eqn:Hf;
      [|destruct (fetchPlanes_total after_remove http (component s)); congruence].
    injection Hstep as <-. simpl.
    destruct (fetchPlanes_cases _ _ _ _ Hf)
      as [->|[[e ->]|(m & old & data & Hm & _ & Hsrc & ->)]]; try done.
    unfold sources_of in *. rewrite Hm in Hdom. simpl.
    rewrite dom_insert_lookup_L by (by eexists). done.
  - destruct (loop s); try done. injection Hstep as <-.
    unfold while_isFetching. by destruct (isFetching (component s)).
  - destruct (destroyed s); [done|]. injection Hstep as <-.
    unfold sources_of, ngOnDestroy. cbn [component with_destroyed with_component].
    destruct (map (component s)) as [m|] eqn:Hm; cbn; rewrite ?Hm;
      rewrite dom_empty_L; apply empty_subseteq.
Qed.

Lemma run_sources_dom (evs : list Event) (s : System) :
  run after_remove airportData countries evs ngOnInit = Some s →
  dom (sources_of (component s)) ⊆ setup_sources.
Proof.
  assert (setup_invariant airportData countries ngOnInit) as Hinv
    by (repeat split; done).
  assert (dom (sources_of (component ngOnInit)) ⊆ setup_sources) as Hdom.
  { unfold sources_of. simpl. rewrite dom_empty_L. apply empty_subseteq. }
  revert Hinv Hdom. generalize ngOnInit.
  induction evs as [|ev evs IH]; intros s0 Hinv Hdom; simpl.
  - by intros [= <-].
  - destruct (step after_remove airportData countries ev s0) as [s1|] eqn:Hstep; [|done].
    apply IH; [by eapply step_setup_invariant | by eapply step_sources_dom].
Qed.

End Provenance.

(** X6: an error reaches the event loop uncaught only from the callback
    of an image load, and it is the error a failed load reported.  The
    refresh cycles, the load handler and the registration of an image
    never leave an error uncaught. *)
Theorem uncaught_errors_come_from_image_loads (after_remove : option exn)
    (airportData : list (string * data.Airport)) (countries : list data.Country)
    (evs : list Event) (s : System) (e : exn)
    (Hrun : run after_remove airportData countries evs ngOnInit = Some s)
    (Huncaught : e ∈ uncaught s) :
  ∃ url image, ImageLoaded url (Some e) image ∈ evs.
Proof.
  revert s Hrun Huncaught.
  induction evs as [|ev evs IH] using rev_ind; intros s Hrun Hin.
  - injection Hrun as <-. by apply elem_of_nil in Hin.
  - apply run_snoc in Hrun as (s1 & Hrun & Hstep).
    pose proof (run_setup_invariant _ _ _ _ _ Hrun) as Hinv.
    destruct (step_uncaught _ _ _ _ _ _ _ Hstep Hinv Hin)
      as [Hold|(url & image & ->)].
    + destruct (IH s1 Hrun Hold) as (url & image & ?).
      exists url, image. apply elem_of_app. by left.
    + exists url, image. apply elem_of_app. right.
      by apply list_elem_of_singleton.
Qed.

Lemma uncaught_errors_come_from_image_loads_witness :
  ∃ s, run None [] sample_countries sample_events ngOnInit = Some s
       ∧ Error "404" ∈ uncaught s
       ∧ ∃ url image, ImageLoaded url (Some (Error "404")) image ∈ sample_events.
Proof.
  destruct (run None [] sample_countries sample_events ngOnInit) as [s|] eqn:Hrun;
    [|vm_compute in Hrun; discriminate Hrun].
  assert (Error "404" ∈ uncaught s) as Hin.
  { vm_compute in Hrun. injection Hrun as <-. simpl.
    apply list_elem_of_singleton. reflexivity. }
  exists s. split; [reflexivity|]. split; [exact Hin|].
  exact (uncaught_errors_come_from_image_loads None [] sample_countries
           sample_events s (Error "404") Hrun Hin).
Defined.

(** X7: between the load event and [ngOnDestroy], whatever cycles and
    image loads have happened, the map has exactly the sources airports,
    planes, route and countries, the four pointer listeners, and the
    layers airport, planes and route, added in this order on top of the
    layers of the style.  When the countries table gives the fill colour a
    branch and no label twice, countries-join is the fourth layer added,
    and it is placed before the style's layer admin-1-boundary-bg; with
    any other table the style validation refuses it and the map has the
    three other layers only.  Each layer draws from a source that is
    there. *)
Theorem setup_is_stable (after_remove : option exn)
    (airportData : list (string * data.Airport)) (countries : list data.Country)
    (evs : list Event) (s : System)
    (Hrun : run after_remove airportData countries evs ngOnInit = Some s)
    (Hloaded : loaded s = true)
    (Hlive : destroyed s = false) :
  ∃ m, map (component s) = Some m
       ∧ dom (mapboxgl.sources m) = {[ "airports"; "planes"; "route"; "countries" ]}
       ∧ (table_usable countries →
          mapboxgl.layers m
          = [(airportLayer, None); (planesLayer, None); (routeLayer, None);
             (countriesLayer countries, Some "admin-1-boundary-bg")])
       ∧ (¬ table_usable countries →
          mapboxgl.layers m
          = [(airportLayer, None); (planesLayer, None); (routeLayer, None)])
       ∧ Forall (λ l, mapboxgl.source (fst l) ∈ dom (mapboxgl.sources m))
                (mapboxgl.layers m)
       ∧ mapboxgl.listeners m
         = [("mousemove", "airport"); ("mouseleave", "airport");
            ("mousemove", "planes"); ("mouseleave", "planes")].
Proof.
  destruct (run_setup_invariant _ _ _ _ _ Hrun) as (_ & Hpost & _).
  destruct (Hpost Hloaded Hlive) as (m & Hm & _ & Ha & [data Hp] & Hr & Hc & Hl & Hli).
  pose proof (run_sources_dom _ _ _ _ _ Hrun) as Hsub.
  unfold sources_of in Hsub. rewrite Hm in Hsub.
  assert ("airports" ∈ dom (mapboxgl.sources m)) by (apply elem_of_dom; by eexists).
  assert ("planes" ∈ dom (mapboxgl.sources m)) by (apply elem_of_dom; by eexists).
  assert ("route" ∈ dom (mapboxgl.sources m)) by (apply elem_of_dom; by eexists).
  assert ("countries" ∈ dom (mapboxgl.sources m)) by (apply elem_of_dom; by eexists).
  exists m. split; [done|]. split.
  { apply set_eq. intros x. split; [by apply Hsub|].
    unfold setup_sources. rewrite !elem_of_union, !elem_of_singleton.
    intros [[[->| ->]| ->]| ->]; done. }
  rewrite Hl, Hli.
  split; [apply setup_layers_usable|]. split; [apply setup_layers_unusable|].
  split; [|done].
  unfold setup_layers. destruct (mapboxgl.valid_layer _); repeat constructor; done.
Qed.

Lemma setup_is_stable_witness :
  ∃ s m, run None [] sample_countries sample_events ngOnInit = Some s
         ∧ map (component s) = Some m
         ∧ dom (mapboxgl.sources m) = {[ "airports"; "planes"; "route"; "countries" ]}
         ∧ (table_usable sample_countries →
            mapboxgl.layers m
            = [(airportLayer, None); (planesLayer, None); (routeLayer, None);
               (countriesLayer sample_countries, Some "admin-1-boundary-bg")])
         ∧ (¬ table_usable sample_countries →
            mapboxgl.layers m
            = [(airportLayer, None); (planesLayer, None); (routeLayer, None)])
         ∧ Forall (λ l, mapboxgl.source (fst l) ∈ dom (mapboxgl.sources m))
                  (mapboxgl.layers m)
         ∧ mapboxgl.listeners m
           = [("mousemove", "airport"); ("mouseleave", "airport");
              ("mousemove", "planes"); ("mouseleave", "planes")].
Proof.
  destruct (run None [] sample_countries sample_events ngOnInit) as [s|] eqn:Hrun;
    [|vm_compute in Hrun; discriminate Hrun].
  destruct (setup_is_stable None [] sample_countries sample_events s Hrun)
    as (m & Hm & H).
  - vm_compute in Hrun. injection Hrun as <-. reflexivity.
  - vm_compute in Hrun. injection Hrun as <-. reflexivity.
  - exists s, m. split; [reflexivity|]. split; [exact Hm | exact H].
Defined.

(** ** Further properties: the icons and the country colours *)

(** X8: the two icons may arrive in either order: after the load event,
    the airport image followed by the plane image, or the plane image
    followed by the airport image, lead to the same state, in which
    exactly these two images are registered, each under its name, no load
    is pending and nothing was thrown. *)
Theorem icons_arrive_in_any_order (after_remove : option exn)
    (airportData : list (string * data.Airport)) (countries : list data.Country)
    (airport plane : mapboxgl.Image) :
  ∃ s m,
    run after_remove airportData countries
      [ MapLoad;
        ImageLoaded "../../assets/img/airport.png" None (Some airport);
        ImageLoaded "../../assets/img/plane.png" None (Some plane) ] ngOnInit = Some s
    ∧ run after_remove airportData countries
        [ MapLoad;
          ImageLoaded "../../assets/img/plane.png" None (Some plane);
          ImageLoaded "../../assets/img/airport.png" None (Some airport) ] ngOnInit = Some s
    ∧ map (component s) = Some m
    ∧ mapboxgl.images m = <["airport-icon" := airport]> (<["plane-icon" := plane]> ∅)
    ∧ mapboxgl.loading m = []
    ∧ uncaught s = [].
Proof.
  eexists _, _. split; [vm_compute; reflexivity|].
  split; [vm_compute; reflexivity|].
  repeat split; reflexivity.
Qed.

(** The expression over any list of codes: valid when the list is not
    empty and has no code twice, and then the highlight colour for the
    codes of the list and the transparent colour for any other. *)
Lemma evaluate_branches_of (codes : list string) (code : string)
    (props : gmap string value) :
  props !! "iso_3166_1_alpha_3" = Some (VStr code) →
  mapboxgl.evaluate
    (VArr (VStr "match" :: VArr [VStr "get"; VStr "iso_3166_1_alpha_3"]
           :: branches_of codes)) props
  = if bool_decide (codes ≠ [] ∧ NoDup codes)
    then Some (VStr (if bool_decide (code ∈ codes) then highlight_color else transparent))
    else None.
Proof.
  intros Hcode. destruct (decide (codes = [])) as [->|Hne].
  { rewrite bool_decide_eq_false_2 by (by intros [? _]). reflexivity. }
  assert (1 ≤ length codes) as Hlen by (destruct codes; [done | simpl; lia]).
  unfold mapboxgl.evaluate.
  replace (String.eqb "match" "match") with true by done.
  rewrite branch_labels_branches_of, length_branches_of.
  replace (Nat.odd (S (2 * length codes))) with true
    by (symmetry; rewrite Nat.odd_succ, Nat.even_mul; done).
  rewrite (bool_decide_eq_true_2 (3 ≤ _)%nat) by lia. cbn [andb].
  destruct (decide (NoDup codes)) as [Hnd|Hnd].
  - rewrite (bool_decide_eq_true_2 (NoDup _)) by done.
    rewrite (bool_decide_eq_true_2 (_ ∧ _)) by done.
    unfold mapboxgl.eval_get.
    replace (String.eqb "get" "get") with true by done.
    rewrite Hcode. simpl. by rewrite match_branches_of.
  - rewrite (bool_decide_eq_false_2 (NoDup _)) by done.
    rewrite (bool_decide_eq_false_2 (_ ∧ _)); [done|]. by intros [_ ?].
Qed.

(** X9: the fill-colour expression is usable exactly when the countries
    table has at least one of TUR, TKM, RUS, POL and none of them twice;
    it then gives the highlight colour to the codes among these four that
    the table lists, and the transparent colour to every other code.  A
    table without any of the four, or with one of them twice, yields an
    expression the style rejects. *)
Theorem fill_color_follows_table (countries : list data.Country)
    (code : string) (props : gmap string value)
    (Hcode : props !! "iso_3166_1_alpha_3" = Some (VStr code)) :
  let listed := List.filter (λ c, bool_decide (c ∈ ["TUR"; "TKM"; "RUS"; "POL"]))
                  (data.alpha3 <$> countries) in
  mapboxgl.evaluate (matchExpression countries) props
  = if bool_decide (listed ≠ [] ∧ NoDup listed)
    then Some (VStr (if bool_decide (code ∈ ["TUR"; "TKM"; "RUS"; "POL"]
                                     ∧ code ∈ data.alpha3 <$> countries)
                     then "rgba(254,197,11,0.8)" else "rgba(0, 0, 0, 0)"))
    else None.
Proof.
  intros listed.
  rewrite matchExpression_branches, fmap_filter_alpha3.
  rewrite (evaluate_branches_of _ code props Hcode).
  unfold highlight_set. fold listed.
  destruct (bool_decide (listed ≠ [] ∧ NoDup listed)); [|done].
  do 2 f_equal. unfold highlight_color, transparent.
  assert (code ∈ listed
          ↔ code ∈ ["TUR"; "TKM"; "RUS"; "POL"] ∧ code ∈ data.alpha3 <$> countries)
    as Hiff.
  { unfold listed. rewrite list_elem_of_In, filter_In, <- !list_elem_of_In.
    rewrite bool_decide_eq_true. tauto. }
  by rewrite (bool_decide_ext _ _ Hiff).
Qed.

(** A table that lacks Turkmenistan: TKM is drawn transparent. *)
Lemma fill_color_follows_table_witness :
  let listed := List.filter (λ c, bool_decide (c ∈ ["TUR"; "TKM"; "RUS"; "POL"]))
                  (data.alpha3 <$> (data.Build_Country <$> ["POL"; "RUS"; "TUR"])) in
  mapboxgl.evaluate (matchExpression (data.Build_Country <$> ["POL"; "RUS"; "TUR"]))
    {[ "iso_3166_1_alpha_3" := VStr "TKM" ]}
  = if bool_decide (listed ≠ [] ∧ NoDup listed)
    then Some (VStr (if bool_decide
                          ("TKM" ∈ ["TUR"; "TKM"; "RUS"; "POL"]
                           ∧ "TKM" ∈ data.alpha3 <$> (data.Build_Country <$> ["POL"; "RUS"; "TUR"]))
                     then "rgba(254,197,11,0.8)" else "rgba(0, 0, 0, 0)"))
    else None.
Proof.
  apply (fill_color_follows_table (data.Build_Country <$> ["POL"; "RUS"; "TUR"]) "TKM").
  reflexivity.
Defined.

(** ** Further properties: the pointer listeners and the layer filter *)




Lemma prefix_spec (a b : string) :
  String.prefix a b = true ↔ ∃ post, b = a +:+ post.
Proof.
  revert b. induction a as [|x a IH]; intros b.
  - split; [intros _; by exists b | by destruct b].
  - destruct b as [|y b]; simpl; [split; [done | by intros [post ?]]|].
    destruct (Ascii.ascii_dec x y) as [->|Hne].
    + rewrite IH. split; intros [post Hpost]; exists post.
      * rewrite Hpost. reflexivity.
      * change (String y b = String y (a +:+ post)) in Hpost. by injection Hpost.
    + split; [done|]. intros [post Hpost].
      change (String y b = String x (a +:+ post)) in Hpost. congruence.
Qed.

(** [contains] is the substring test. *)
Lemma contains_spec (needle hay : string) :
  expression.contains needle hay = true ↔ ∃ pre post, hay = pre +:+ needle +:+ post.
Proof.
  induction hay as [|y hay IH]; cbn [expression.contains].
  - rewrite orb_false_r, prefix_spec. split.
    + intros [post Hpost]. exists "", post. exact Hpost.
    + intros (pre & post & Hpre). destruct pre as [|z pre]; [by exists post|].
      change ("" = String z (pre +:+ needle +:+ post)) in Hpre. discriminate Hpre.
  - rewrite orb_true_iff, prefix_spec, IH. split.
    + intros [[post Hpost]|(pre & post & ->)].
      * exists "", post. exact Hpost.
      * exists (String y pre), post. reflexivity.
    + intros (pre & post & Hpre). destruct pre as [|z pre].
      * left. exists post. exact Hpre.
      * right. change (String y hay = String z (pre +:+ needle +:+ post)) in Hpre.
        injection Hpre as -> ->. by exists pre, post.
Qed.

(** X11: the filter of the countries layer keeps a boundary feature
    exactly when its [disputed] property is the string "false" and its
    [worldview] property is "all" or contains "US"; a feature whose
    [disputed] is anything else is dropped without its [worldview] being
    looked at, be it missing. *)
Theorem worldview_filter_keeps (props : gmap string value)
    (disputed : string)
    (Hdisputed : props !! "disputed" = Some (VStr disputed)) :
  (disputed ≠ "false" →
   expression.evaluate worldview_filter props = Some (VBool false))
  ∧ (∀ worldview, props !! "worldview" = Some (VStr worldview) →
       ∃ kept, expression.evaluate worldview_filter props = Some (VBool kept)
               ∧ (kept = true ↔
                  disputed = "false"
                  ∧ (worldview = "all"
                     ∨ ∃ pre post, worldview = pre +:+ "US" +:+ post))).
Proof.
  split.
  - intros Hne. unfold worldview_filter. simpl. rewrite Hdisputed. simpl.
    apply String.eqb_neq in Hne. by rewrite Hne.
  - intros worldview Hworldview.
    exists (String.eqb disputed "false"
            && (String.eqb worldview "all" || expression.contains "US" worldview)).
    split.
    + unfold worldview_filter, WORLDVIEW. simpl. rewrite Hdisputed, Hworldview. simpl.
      destruct (String.eqb disputed "false"); [|reflexivity].
      destruct (String.eqb worldview "all"); [reflexivity|].
      destruct (expression.contains "US" worldview); reflexivity.
    + rewrite andb_true_iff, orb_true_iff, !String.eqb_eq, contains_spec. tauto.
Qed.

Lemma worldview_filter_keeps_witness :
  (("false" : string) ≠ "false" →
   expression.evaluate worldview_filter
     (<["worldview" := VStr "JP,US"]> {[ "disputed" := VStr "false" ]})
   = Some (VBool false))
  ∧ (∀ worldview,
       (<["worldview" := VStr "JP,US"]> {[ "disputed" := VStr "false" ]}
          : gmap string value) !! "worldview"
       = Some (VStr worldview) →
       ∃ kept, expression.evaluate worldview_filter
                 (<["worldview" := VStr "JP,US"]> {[ "disputed" := VStr "false" ]})
               = Some (VBool kept)
               ∧ (kept = true ↔
                  ("false" : string) = "false"
                  ∧ (worldview = "all"
                     ∨ ∃ pre post, worldview = pre +:+ "US" +:+ post))).
Proof.
  apply (worldview_filter_keeps
           (<["worldview" := VStr "JP,US"]> {[ "disputed" := VStr "false" ]}) "false").
  reflexivity.
Defined.

(** ** Further properties: the earlier copy of the component *)

(** X12: in the earlier copy the whole setup sits in the callback of the
    airport image.  When that load fails, the error is thrown uncaught
    and the setup is aborted: the map has no source, no layer, no
    listener and no image, the plane image is not requested, no popup is
    created, and no event but the teardown can follow. *)
Theorem earlier_copy_airport_failure_aborts_setup
    (airportData : list (string * data.Airport)) (countries : list data.Country)
    (e : exn) (image : option mapboxgl.Image) :
  ∃ s m,
    part_000.run airportData countries
      [ part_000.MapLoad;
        part_000.ImageLoaded "../../assets/img/airport.png" (Some e) image ]
      part_000.started = Some s
    ∧ part_000.uncaught s = [e]
    ∧ part_000.map (part_000.component s) = Some m
    ∧ mapboxgl.sources m = ∅
    ∧ mapboxgl.layers m = []
    ∧ mapboxgl.listeners m = []
    ∧ mapboxgl.images m = ∅
    ∧ mapboxgl.loading m = []
    ∧ part_000.popup (part_000.component s) = false
    ∧ ∀ ev s', part_000.step airportData countries ev s = Some s' →
               ev = part_000.Destroy.
Proof.
  eexists _, _. split; [reflexivity|].
  do 8 (split; [reflexivity|]).
  intros [|url error img|] s'; simpl; done.
Qed.

Lemma fmap_filter_codes (h : data.Country → bool) (P : string → bool)
    (countries : list data.Country) :
  (∀ country, h country = P (data.alpha3 country)) →
  data.alpha3 <$> List.filter h countries = List.filter P (data.alpha3 <$> countries).
Proof.
  intros Hh. induction countries as [|country countries IH]; [done|].
  rewrite fmap_cons. cbn [List.filter]. rewrite <- Hh.
  destruct (h country); [rewrite fmap_cons|]; by rewrite IH.
Qed.

Lemma earlier_highlighted_spec (country : data.Country) :
  part_000.highlighted country
  = bool_decide (data.alpha3 country ∈ ["TUR"; "RUS"; "POL"]).
Proof.
  unfold part_000.highlighted. symmetry.
  destruct (String.eqb_spec (data.alpha3 country) "TUR") as [->|H1]; [done|].
  destruct (String.eqb_spec (data.alpha3 country) "RUS") as [->|H2]; [done|].
  destruct (String.eqb_spec (data.alpha3 country) "POL") as [->|H3]; [done|].
  apply bool_decide_eq_false_2.
  rewrite !elem_of_cons, elem_of_nil. tauto.
Qed.

Lemma valid_earlier_countriesLayer (countries : list data.Country) :
  mapboxgl.valid_layer (part_000.countriesLayer countries) = true
  ↔ earlier_table_usable countries.
Proof.
  unfold mapboxgl.valid_layer, part_000.countriesLayer, earlier_table_usable.
  cbn [mapboxgl.paint mapboxgl.layout forallb snd]. rewrite !andb_true_r.
  unfold part_000.matchExpression. cbv zeta. rewrite pushes_branches.
  change ([VStr "match"; VArr [VStr "get"; VStr "iso_3166_1_alpha_3"]] ++ ?l)
    with (VStr "match" :: VArr [VStr "get"; VStr "iso_3166_1_alpha_3"] :: l).
  rewrite valid_match_branches_of.
  rewrite (fmap_filter_codes _ (λ c, bool_decide (c ∈ ["TUR"; "RUS"; "POL"]))
             countries earlier_highlighted_spec).
  apply bool_decide_eq_true.
Qed.

(** X13: in the earlier copy, once the airport image has loaded (or the
    load ended with neither error nor image), the callback sets the map
    up: the sources are countries, airports and route, and there is no
    planes source; the layers airport, route and plane are added in this
    order and, when the countries table gives the fill colour a branch
    and no label twice, countries-join after them, placed before the
    style's layer admin-1-boundary-bg; with any other table the style
    validation refuses countries-join.  The popup exists; the two pairs of
    coordinates were logged in radians; the plane image is requested.  A
    failure of the plane image afterwards is thrown uncaught and leaves
    all of this as it is. *)
Theorem earlier_copy_setup_completes
    (airportData : list (string * data.Airport)) (countries : list data.Country)
    (image : option mapboxgl.Image) (e : exn) :
  ∃ s m s' m',
    part_000.run airportData countries
      [ part_000.MapLoad;
        part_000.ImageLoaded "../../assets/img/airport.png" None image ]
      part_000.started = Some s
    ∧ part_000.uncaught s = []
    ∧ part_000.map (part_000.component s) = Some m
    ∧ dom (mapboxgl.sources m) = {[ "countries"; "airports"; "route" ]}
    ∧ (earlier_table_usable countries →
       mapboxgl.layers m
       = [(airportLayer, None); (part_000.routeLayer, None); (part_000.planeLayer, None);
          (part_000.countriesLayer countries, Some "admin-1-boundary-bg")])
    ∧ (¬ earlier_table_usable countries →
       mapboxgl.layers m
       = [(airportLayer, None); (part_000.routeLayer, None); (part_000.planeLayer, None)])
    ∧ Forall (λ l, mapboxgl.source (fst l) ∈ dom (mapboxgl.sources m)) (mapboxgl.layers m)
    ∧ mapboxgl.loading m = [("../../assets/img/plane.png", "plane-icon")]
    ∧ part_000.popup (part_000.component s) = true
    ∧ part_000.console (part_000.component s)
      = [("Antalya koordinatları (Radyan):",
          [part_000.toRadians 30.8005%float; part_000.toRadians 36.9038%float]);
         ("Düsseldorf koordinatları (Radyan):",
          [part_000.toRadians 6.7668%float; part_000.toRadians 51.2895%float])]
    ∧ part_000.step airportData countries
        (part_000.ImageLoaded "../../assets/img/plane.png" (Some e) None) s = Some s'
    ∧ part_000.uncaught s' = [e]
    ∧ part_000.map (part_000.component s') = Some m'
    ∧ mapboxgl.sources m' = mapboxgl.sources m
    ∧ mapboxgl.layers m' = mapboxgl.layers m
    ∧ mapboxgl.listeners m' = mapboxgl.listeners m.
Proof.
  exists {| part_000.component :=
              {| part_000.map := Some (earlier_map airportData countries image);
                 part_000.popup := true;
                 part_000.console :=
                   [("Antalya koordinatları (Radyan):",
                     [part_000.toRadians 30.8005%float; part_000.toRadians 36.9038%float]);
                    ("Düsseldorf koordinatları (Radyan):",
                     [part_000.toRadians 6.7668%float; part_000.toRadians 51.2895%float])] |};
            part_000.loaded := true; part_000.destroyed := false;
            part_000.uncaught := [] |},
         (earlier_map airportData countries image).
  eexists _, _.
  split; [destruct image; vm_compute; reflexivity|].
  do 2 (split; [reflexivity|]). split.
  { cbn [earlier_map mapboxgl.sources].
    rewrite !dom_insert_L, dom_empty_L, (right_id_L ∅ (∪)).
    apply set_eq. intros x. rewrite !elem_of_union, !elem_of_singleton. tauto. }
  split.
  { intros H. apply valid_earlier_countriesLayer in H.
    cbn [earlier_map mapboxgl.layers]. by rewrite H. }
  split.
  { intros H. cbn [earlier_map mapboxgl.layers].
    destruct (mapboxgl.valid_layer _) eqn:Hv; [|done].
    by apply valid_earlier_countriesLayer in Hv. }
  split.
  { cbn [earlier_map mapboxgl.sources mapboxgl.layers].
    destruct (mapboxgl.valid_layer _); repeat constructor; apply elem_of_dom; by eexists. }
  do 3 (split; [reflexivity|]).
  split; [reflexivity|]. split; [reflexivity|]. split; [reflexivity|].
  repeat split; reflexivity.
Qed.

(** X14: the earlier copy highlights three countries only: its
    expression, usable when the table has at least one of TUR, RUS, POL
    and none of them twice, gives the highlight colour to those of the
    three the table lists and the transparent colour to every other code,
    TKM included. *)
Theorem earlier_copy_fill_color (countries : list data.Country)
    (code : string) (props : gmap string value)
    (Hcode : props !! "iso_3166_1_alpha_3" = Some (VStr code)) :
  let listed := List.filter (λ c, bool_decide (c ∈ ["TUR"; "RUS"; "POL"]))
                  (data.alpha3 <$> countries) in
  mapboxgl.evaluate (part_000.matchExpression countries) props
  = if bool_decide (listed ≠ [] ∧ NoDup listed)
    then Some (VStr (if bool_decide (code ∈ ["TUR"; "RUS"; "POL"]
                                     ∧ code ∈ data.alpha3 <$> countries)
                     then "rgba(254,197,11,0.8)" else "rgba(0, 0, 0, 0)"))
    else None.
Proof.
  intros listed.
  assert (part_000.matchExpression countries
          = VArr (VStr "match" :: VArr [VStr "get"; VStr "iso_3166_1_alpha_3"]
                  :: branches_of (data.alpha3 <$> List.filter part_000.highlighted countries)))
    as ->.
  { unfold part_000.matchExpression. cbv zeta. by rewrite pushes_branches. }
  rewrite (fmap_filter_codes _ (λ c, bool_decide (c ∈ ["TUR"; "RUS"; "POL"]))).
  2:{ intros country. unfold part_000.highlighted. symmetry.
      destruct (String.eqb_spec (data.alpha3 country) "TUR") as [->|H1]; [done|].
      destruct (String.eqb_spec (data.alpha3 country) "RUS") as [->|H2]; [done|].
      destruct (String.eqb_spec (data.alpha3 country) "POL") as [->|H3]; [done|].
      apply bool_decide_eq_false_2.
      rewrite !elem_of_cons, elem_of_nil. tauto. }
  rewrite (evaluate_branches_of _ code props Hcode). fold listed.
  destruct (bool_decide (listed ≠ [] ∧ NoDup listed)); [|done].
  do 2 f_equal. unfold highlight_color, transparent.
  assert (code ∈ listed
          ↔ code ∈ ["TUR"; "RUS"; "POL"] ∧ code ∈ data.alpha3 <$> countries) as Hiff.
  { unfold listed. rewrite list_elem_of_In, filter_In, <- !list_elem_of_In.
    rewrite bool_decide_eq_true. tauto. }
  by rewrite (bool_decide_ext _ _ Hiff).
Qed.

(** With the sample table, which lists Turkmenistan, TKM is transparent
    in the earlier copy. *)
Lemma earlier_copy_fill_color_witness :
  let listed := List.filter (λ c, bool_decide (c ∈ ["TUR"; "RUS"; "POL"]))
                  (data.alpha3 <$> sample_countries) in
  mapboxgl.evaluate (part_000.matchExpression sample_countries)
    {[ "iso_3166_1_alpha_3" := VStr "TKM" ]}
  = if bool_decide (listed ≠ [] ∧ NoDup listed)
    then Some (VStr (if bool_decide ("TKM" ∈ ["TUR"; "RUS"; "POL"]
                                     ∧ "TKM" ∈ data.alpha3 <$> sample_countries)
                     then "rgba(254,197,11,0.8)" else "rgba(0, 0, 0, 0)"))
    else None.
Proof.
  apply (earlier_copy_fill_color sample_countries "TKM"). reflexivity.
Defined.

(** X15: between the load event and [ngOnDestroy] the airports source
    holds one point per airport of the dataset, none left out, in the
    order of the dataset, each at [[lon, lat]] with the properties name,
    iata and icao of its airport; no refresh cycle or image load changes
    it. *)
Theorem airports_source_lists_dataset (after_remove : option exn)
    (airportData : list (string * data.Airport)) (countries : list data.Country)
    (evs : list Event) (s : System)
    (Hrun : run after_remove airportData countries evs ngOnInit = Some s)
    (Hloaded : loaded s = true)
    (Hlive : destroyed s = false) :
  ∃ m features,
    map (component s) = Some m
    ∧ mapboxgl.sources m !! "airports"
      = Some (mapboxgl.GeoJSONSource (FeatureCollection features))
    ∧ length features = length airportData
    ∧ Forall2 (λ entry f,
                 geometry f = Point [VNum (data.lon entry.2); VNum (data.lat entry.2)]
                 ∧ properties f = [("name", data.name entry.2);
                                   ("iata", data.iata entry.2);
                                   ("icao", data.icao entry.2)])
              airportData features.
Proof.
  destruct (run_setup_invariant _ _ _ _ _ Hrun) as (_ & Hpost & _).
  destruct (Hpost Hloaded Hlive) as (m & Hm & _ & Ha & _).
  exists m, (airportFeature <$> (snd <$> airportData)).
  split; [done|]. split; [done|]. split; [by rewrite !length_fmap|].
  rewrite <- list_fmap_compose.
  apply Forall2_fmap_r, Forall_Forall2_diag, Forall_forall. by intros entry _.
Qed.

Lemma airports_source_lists_dataset_witness :
  ∃ s m features,
    run None [("LTAC", {| data.name := VStr "Esenboga"; data.iata := VStr "ESB";
                          data.icao := VStr "LTAC";
                          data.lon := 32.9951%float; data.lat := 40.1281%float |})]
        sample_countries sample_events ngOnInit = Some s
    ∧ map (component s) = Some m
    ∧ mapboxgl.sources m !! "airports"
      = Some (mapboxgl.GeoJSONSource (FeatureCollection features))
    ∧ length features
      = length [("LTAC", {| data.name := VStr "Esenboga"; data.iata := VStr "ESB";
                            data.icao := VStr "LTAC";
                            data.lon := 32.9951%float; data.lat := 40.1281%float |})]
    ∧ Forall2 (λ entry f,
                 geometry f = Point [VNum (data.lon entry.2); VNum (data.lat entry.2)]
                 ∧ properties f = [("name", data.name entry.2);
                                   ("iata", data.iata entry.2);
                                   ("icao", data.icao entry.2)])
              [("LTAC", {| data.name := VStr "Esenboga"; data.iata := VStr "ESB";
                           data.icao := VStr "LTAC";
                           data.lon := 32.9951%float; data.lat := 40.1281%float |})]
              features.
Proof.
  destruct (run None [("LTAC", {| data.name := VStr "Esenboga"; data.iata := VStr "ESB";
                                  data.icao := VStr "LTAC";
                                  data.lon := 32.9951%float; data.lat := 40.1281%float |})]
              sample_countries sample_events ngOnInit) as [s|] eqn:Hrun;
    [|vm_compute in Hrun; discriminate Hrun].
  destruct (airports_source_lists_dataset None _ sample_countries sample_events s Hrun)
    as (m & features & H).
  - vm_compute in Hrun. injection Hrun as <-. reflexivity.
  - vm_compute in Hrun. injection Hrun as <-. reflexivity.
  - exists s, m, features. split; [reflexivity | exact H].
Defined.

(** A run that contains [Destroy] ends destroyed. *)
Lemma run_destroy_destroyed (after_remove : option exn)
    (airportData : list (string * data.Airport)) (countries : list data.Country)
    (evs : list Event) (s : System) :
  run after_remove airportData countries evs ngOnInit = Some s →
  Destroy ∈ evs → destroyed s = true.
Proof.
  revert s. induction evs as [|ev evs IH] using rev_ind; intros s Hrun Hin.
  - by apply elem_of_nil in Hin.
  - apply run_snoc in Hrun as (s1 & Hrun & Hstep).
    assert (ev = Destroy ∨ ev ≠ Destroy) as [->|Hev]
      by (destruct ev; (by left) || (by right)).
    + by destruct (step_destroy _ _ _ _ _ Hstep) as (_ & ? & _).
    + destruct (step_keeps_flag _ _ _ _ _ _ Hstep Hev) as [_ ->].
      apply IH; [done|]. apply elem_of_app in Hin as [?|Hlast]; [done|].
      apply list_elem_of_singleton in Hlast. congruence.
Qed.

(** X16: after the teardown no source and no layer comes back and no
    point is published, whatever responses and images have arrived since.
    An icon image that arrives after the teardown is the one thing still
    written: its callback registers it on the removed map, nothing is
    thrown, and the map still has no source and no layer. *)
Theorem after_teardown_only_icons_are_written (after_remove : option exn)
    (airportData : list (string * data.Airport)) (countries : list data.Country)
    (evs : list Event) (s : System)
    (Hrun : run after_remove airportData countries evs ngOnInit = Some s)
    (Hdestroyed : Destroy ∈ evs) :
  ∃ m, map (component s) = Some m
       ∧ mapboxgl.sources m = ∅
       ∧ mapboxgl.layers m = []
       ∧ published (component s) = None
       ∧ ∀ url icon img,
           requested url (mapboxgl.loading m) = Some icon →
           mapboxgl.images m !! icon = None →
           ∃ s' m',
             step after_remove airportData countries (ImageLoaded url None (Some img)) s
             = Some s'
             ∧ uncaught s' = uncaught s
             ∧ map (component s') = Some m'
             ∧ mapboxgl.images m' !! icon = Some img
             ∧ mapboxgl.sources m' = ∅
             ∧ mapboxgl.layers m' = []
             ∧ published (component s') = None.
Proof.
  pose proof (run_destroy_destroyed _ _ _ _ _ Hrun Hdestroyed) as Hd.
  destruct (run_setup_invariant _ _ _ _ _ Hrun) as (_ & _ & Hdes).
  destruct (Hdes Hd) as (m & Hm & Hlayers & Hempty).
  exists m. do 3 (split; [done|]). split.
  { unfold published. by rewrite Hm, Hempty. }
  intros url icon img Hreq Hfree.
  eexists _, _. split; [simpl; rewrite Hm, Hreq; reflexivity|].
  split; [reflexivity|]. split; [reflexivity|].
  unfold published, mapboxgl.lazyInitEmptyStyle. simpl.
  destruct (mapboxgl.removed m); simpl.
  - rewrite lookup_empty, lookup_insert_eq. by repeat split.
  - rewrite Hfree, lookup_insert_eq, Hempty. by repeat split.
Qed.

Lemma after_teardown_only_icons_are_written_witness :
  ∃ s m,
    run (Some (TypeError "Cannot read properties of undefined")) [] sample_countries
      [MapLoad; Destroy; HttpResponse (Normal sample_response); TimerFired] ngOnInit
    = Some s
    ∧ map (component s) = Some m
    ∧ mapboxgl.sources m = ∅
    ∧ mapboxgl.layers m = []
    ∧ published (component s) = None
    ∧ ∀ url icon img,
        requested url (mapboxgl.loading m) = Some icon →
        mapboxgl.images m !! icon = None →
        ∃ s' m',
          step (Some (TypeError "Cannot read properties of undefined")) [] sample_countries
            (ImageLoaded url None (Some img)) s
          = Some s'
          ∧ uncaught s' = uncaught s
          ∧ map (component s') = Some m'
          ∧ mapboxgl.images m' !! icon = Some img
          ∧ mapboxgl.sources m' = ∅
          ∧ mapboxgl.layers m' = []
          ∧ published (component s') = None.
Proof.
  destruct (run (Some (TypeError "Cannot read properties of undefined")) []
              sample_countries
              [MapLoad; Destroy; HttpResponse (Normal sample_response); TimerFired]
              ngOnInit) as [s|] eqn:Hrun;
    [|vm_compute in Hrun; discriminate Hrun].
  destruct (after_teardown_only_icons_are_written _ _ _ _ s Hrun) as (m & Hm & H).
  - apply elem_of_cons. right. apply elem_of_cons. left. reflexivity.
  - exists s, m. split; [reflexivity|]. split; [exact Hm | exact H].
Defined.

(** The plane icon arrives after the teardown: it is registered on the
    map, which has no source and no layer. *)
Lemma icon_after_teardown_is_registered :
  ∃ s m,
    run (Some (TypeError "Cannot read properties of undefined")) [] sample_countries
      [ MapLoad; Destroy;
        ImageLoaded "../../assets/img/plane.png" None
          (Some {| mapboxgl.url := "../../assets/img/plane.png" |}) ]
      ngOnInit
    = Some s
    ∧ uncaught s = []
    ∧ map (component s) = Some m
    ∧ mapboxgl.images m
      = {[ "plane-icon" := {| mapboxgl.url := "../../assets/img/plane.png" |} ]}
    ∧ mapboxgl.sources m = ∅
    ∧ mapboxgl.layers m = [].
Proof. eexists _, _. split; [vm_compute; reflexivity|]. repeat split; reflexivity. Qed.
